(** * lucky-parking: the dataset builder [src/data/make_dataset.py]

    A shallow embedding of [create_sample] and [clean] and the properties
    of the cleaning pipeline.

    Conventions of the embedding.
    - A DataFrame cell is [option string]: [Some s] is the string [s],
      [None] is the missing marker [np.nan].  The embedding starts after
      pandas has typed the fields of a file: what a column holds, it holds
      as strings, as in the parking-citation data (codes such as
      [80.69BS]); a column that pandas would read as numbers is outside
      it.
    - A column that holds a string is an object column: [read_csv] stores
      the one object [np.nan] in each of its missing cells, so Python's
      [set] keeps it as a single element that [set.intersection] finds on
      both sides, and [Series.isin] matches a missing cell with it.  A
      column without any string is a float column: iterating it makes a
      new NaN object of every cell, which no other set holds.  See
      [column_set] below.
    - A row carries its index label; [read_csv] numbers the rows from 0,
      row filters keep the labels, [reset_index] renumbers.
    - [random.random()] reads the next element of a stream of draws. *)

From Stdlib Require Import QArith Ascii.
From stdpp Require Import gmap strings list pretty.

Local Open Scope nat_scope.

Set Warnings "-clear-no-such-hyp".

(** ** Python strings and paths *)

Module PyStr.

(** [s.replace(old, new)] for a non-empty [old]: scan from the left; at a
    match emit [new] and jump over [old].  [skip] counts the characters
    of a matched [old] still to be jumped over. *)
Fixpoint replace_from (old new : string) (skip : nat) (s : string) : string :=
  match s with
  | EmptyString => EmptyString
  | String c s' =>
      match skip with
      | S k => replace_from old new k s'
      | O =>
          if String.prefix old s
          then new +:+ replace_from old new (String.length old - 1) s'
          else String c (replace_from old new 0 s')
      end
  end.

(** With an empty [old], Python puts [new] before every character and at
    the end. *)
Fixpoint interleave (new s : string) : string :=
  match s with
  | EmptyString => EmptyString
  | String c s' => String c (new +:+ interleave new s')
  end.

Definition replace (old new s : string) : string :=
  match old with
  | EmptyString => new +:+ interleave new s
  | String _ _ => replace_from old new 0 s
  end.

(** [s.split(sep)] for a one-character separator. *)
Fixpoint split (sep : ascii) (s : string) : list string :=
  match s with
  | EmptyString => [EmptyString]
  | String c s' =>
      if Ascii.eqb c sep then EmptyString :: split sep s'
      else match split sep s' with
           | w :: ws => String c w :: ws
           | [] => [String c EmptyString]
           end
  end.

(** [name.rfind('.')] *)
Fixpoint rfind_dot (name : string) : option nat :=
  match name with
  | EmptyString => None
  | String c rest =>
      match rfind_dot rest with
      | Some i => Some (S i)
      | None => if Ascii.eqb c "."%char then Some 0 else None
      end
  end.

(** [PurePath.stem] of a path whose final component is [name]: the name
    without its last suffix; a leading or a trailing dot starts no
    suffix. *)
Definition stem (name : string) : string :=
  match rfind_dot name with
  | Some i =>
      if bool_decide (0 < i) && bool_decide (i < String.length name - 1)
      then String.substring 0 i name
      else name
  | None => name
  end.

(** [old in s], as a property and as the test *)
Definition occurs (old s : string) : Prop :=
  ∃ a b, s = a +:+ old +:+ b.

Fixpoint contains (old s : string) : bool :=
  String.prefix old s
  || match s with
     | EmptyString => false
     | String _ s' => contains old s'
     end.

End PyStr.

(** ** Tables *)

Abbreviation cell := (option string).

Record Row := mkRow {
  label : nat;
  make : cell;
  violation_code : cell;
  violation_description : cell
}.

Abbreviation DataFrame := (list Row).

#[global] Instance Row_eq_dec : EqDecision Row.
Proof. solve_decision. Defined.

Definition isna (c : cell) : bool :=
  match c with None => true | Some _ => false end.

(** [pd.read_csv(target_file)] in [clean]: the records of the file, as
    pandas has read them (an empty field and the NA spellings are missing,
    the other fields are strings), under a fresh [RangeIndex]. *)
Definition read_csv (records : list (cell * cell * cell)) : DataFrame :=
  imap (λ i rec, mkRow i rec.1.1 rec.1.2 rec.2) records.

(** ** [create_sample] *)

Module Sampler.

(** The values a Python float takes, as far as comparisons go. *)
Inductive pyfloat := Finite (q : Q) | PosInf | NegInf | NaN.

Definition fle (x y : pyfloat) : bool :=
  match x, y with
  | NaN, _ | _, NaN => false
  | NegInf, _ | _, PosInf => true
  | Finite a, Finite b => Qle_bool a b
  | _, _ => false
  end.

Definition flt (x y : pyfloat) : bool :=
  match x, y with
  | NaN, _ | _, NaN => false
  | PosInf, _ | _, NegInf => false
  | Finite a, Finite b => negb (Qle_bool b a)
  | _, _ => true
  end.

(** [x > y] is [y < x] *)
Definition fgt (x y : pyfloat) : bool := flt y x.

Inductive exn := AssertionError.

(** A data line of the source file: the three columns named by [usecols]
    (in the file's order) and the columns that [usecols] leaves out. *)
Record RawRecord := mkRaw {
  Make : cell;
  Violation_code : cell;
  Violation_Description : cell;
  other_columns : list cell
}.

Definition usecols (r : RawRecord) : cell * cell * cell :=
  (Make r, Violation_code r, Violation_Description r).

(** The random generator: a computation reads the stream of draws at a
    position and returns the next position. *)
Definition Rand (A : Type) : Type := (nat → Q) → nat → A * nat.

#[global] Instance Rand_ret : MRet Rand := λ A a _ pos, (a, pos).

#[global] Instance Rand_bind : MBind Rand := λ A B k m draws pos,
  let '(a, pos') := m draws pos in k a draws pos'.

Definition random_random : Rand Q := λ draws pos, (draws pos, S pos).

(** [lambda i: i > 0 and random.random() > sample_frac]; [and] does not
    draw for the header line. *)
Definition skiprows (sample_frac : pyfloat) (i : nat) : Rand bool :=
  if bool_decide (0 < i)
  then x ← random_random; mret (fgt (Finite x) sample_frac)
  else mret false.

(** [read_csv] asks [skiprows] once for every line, in order; [i] is the
    number of the line in the file. *)
Fixpoint read_lines (sample_frac : pyfloat) (i : nat) (lines : list RawRecord)
  : Rand (list RawRecord) :=
  match lines with
  | [] => mret []
  | r :: rest =>
      skip ← skiprows sample_frac i;
      kept ← read_lines sample_frac (S i) rest;
      mret (if skip : bool then kept else r :: kept)
  end.

(** The header is line 0 and is never skipped; the data lines follow
    from line 1. *)
Definition read_sample (sample_frac : pyfloat) (data : list RawRecord)
  : Rand (list RawRecord) :=
  _ ← skiprows sample_frac 0; read_lines sample_frac 1 data.

(** [create_sample(target_file, output_filedir, sample_frac)]:
    [stem] is [target_file.stem], [str_frac] is [str(sample_frac)] and
    [data] holds the data lines of the file.  The result is the name of
    the file written below [output_filedir] and the lines kept, cut down
    to the three columns.  pandas types the columns of the sample from the
    lines kept alone; the records stand for what is written as long as
    the kept cells of a column are not all numbers. *)
Definition create_sample (stem str_frac : string) (sample_frac : pyfloat)
    (data : list RawRecord) : Rand (exn + string * list (cell * cell * cell)) :=
  if fle sample_frac (Finite 1) && fgt sample_frac (Finite 0)
  then
    let SAMPLE_FILEPATH :=
      stem +:+ "_" +:+ PyStr.replace "." EmptyString str_frac +:+ "samp.csv" in
    df ← read_sample sample_frac data;
    mret (inr (SAMPLE_FILEPATH, usecols <$> df))
  else mret (inl AssertionError).

(** The spec's precondition on the fraction. *)
Definition in_unit_interval (f : pyfloat) : Prop :=
  match f with
  | Finite q => (0 < q)%Q ∧ (q <= 1)%Q
  | _ => False
  end.

End Sampler.

(** ** [clean] *)

Module Clean.

(** *** Make aliases *)

(** [df.replace(to_replace, value)] with a list of strings and one
    string: a cell is rewritten when its value is one of the strings
    of the list.  It goes over every column of the frame. *)
Definition replace_cell (to_replace : list string) (value : string) (c : cell) : cell :=
  match c with
  | Some s => if bool_decide (s ∈ to_replace) then Some value else Some s
  | None => None
  end.

Definition replace (to_replace : list string) (value : string) (df : DataFrame)
  : DataFrame :=
  (λ r, mkRow (label r)
          (replace_cell to_replace value (make r))
          (replace_cell to_replace value (violation_code r))
          (replace_cell to_replace value (violation_description r))) <$> df.

(** A line of [references/make.csv] with both fields filled in: the make
    and its aliases joined by commas. *)
Record MakeRecord := mkMake { canonical : string; alias : string }.

(** [make_df["alias"] = make_df.alias.apply(lambda x: x.split(","))] *)
Definition split_alias (m : MakeRecord) : string * list string :=
  (canonical m, PyStr.split "," (alias m)).

(** [for _, data in make_df.iterrows(): df = df.replace(...)] *)
Definition replace_aliases (make_df : list MakeRecord) (df : DataFrame) : DataFrame :=
  foldl (λ d data, replace data.2 data.1 d) df (split_alias <$> make_df).

(** *** Codes and descriptions *)

(** The column [col] holds the value [c] in some row. *)
Definition holds (col : Row → cell) (df : DataFrame) (c : cell) : Prop :=
  ∃ r, r ∈ df ∧ col r = c.

(** [set(df[col])], as far as another set can share its elements: the
    cells of a column that holds a string, the missing marker among them;
    nothing of a column that is all missing, whose NaN objects are made
    anew by the iteration and equal nothing. *)
Definition column_set (col : Row → cell) (df : DataFrame) : gset cell :=
  if forallb (λ r, isna (col r)) df then ∅ else list_to_set (col <$> df).

Definition same_codes (df : DataFrame) : gset cell :=
  column_set violation_code df ∩ column_set violation_description df.

(** [code_swap] receives the two columns of a row; the assignment
    through [df.loc] writes them back and leaves the rest of the row. *)
Definition code_swap (r : Row) : Row :=
  mkRow (label r) (make r) (violation_description r) None.

Definition code_swap_filter (same : gset cell) (r : Row) : bool :=
  bool_decide (violation_description r ∈ same)
  || bool_decide (violation_code r = Some "000").

(** [same_codes] is computed once, before any row is rewritten. *)
Definition swap_pass (df : DataFrame) : DataFrame :=
  let same := same_codes df in
  (λ r, if code_swap_filter same r then code_swap r else r) <$> df.

(** [df[~(df["violation_code"].isna() & df["violation_description"].isna())]] *)
Definition drop_pass (df : DataFrame) : DataFrame :=
  filter (λ r, ¬ (isna (violation_code r) && isna (violation_description r))) df.

Definition reconcile (df : DataFrame) : DataFrame := drop_pass (swap_pass df).

(** *** Violation aliases *)

(** The literal of [viol_aliases], in the order of the source. *)
Definition viol_aliases_items : list (string * string) := [
  ("22500B", "PARKED IN CROSSWALK");
  ("22507.8B", "DISABLED PARKING/OBS");
  ("80.69A+", "STOP/STAND PROHIBIT");
  ("8056E2", "YELLOW ZONE");
  ("22507.8B-", "DISABLED PARKING/OBSTRUCT ACCESS");
  ("80.61", "STANDNG IN ALLEY");
  ("80.66.1D", "RESTRICTED TAXI ZONE");
  ("80.54", "OVERNIGHT PARKING");
  ("8061#", "STANDING IN ALLEY");
  ("80.69.1C", "PK TRAILER");
  ("225001", "PARK FIRE LANE");
  ("80.69D", "VEH/LOAD OVR 6' HIGH");
  ("22500.1+", "PARKED IN FIRE LANE");
  ("22507.8A-", "DISABLED PARKING/NO DP ID");
  ("557", "8755*");
  ("80.69BS", "NO PARK/STREET CLEAN");
  ("22502E", "18 IN. CURB/1 WAY");
  ("5200A", "DSPLYPLATE A");
  ("22507.8A", "DISABLED PARKING/NO");
  ("80692*", "COMVEH RES/OV TM B-2");
  ("553", "80581");
  ("22511.57B", "DP- RO NOT PRESENT");
  ("80.69.4", "PK OVERSIZ");
  ("80.75.1", "AUDIBLE ALARM");
  ("5204A-", "DISPLAY OF TABS");
  ("80.69C", "PARKED OVER TIME LIMIT");
  ("80713", "PARKING/FRONT YARD 1");
  ("22500K", "PARKED ON BRIDGE");
  ("569", "2251157A");
  ("88.03A", "OUTSIDE LINES/METER");
  ("22522-", "3 FT. SIDEWALK RAMP");
  ("22507.8C1", "DISABLED PARKING/BOUNDARIES");
  ("8709D", "LOADING ZONES");
  ("88.66", "ELECTRIC CHARGING STATION SPACES");
  ("8070", "PARK IN GRID LOCK ZN");
  ("88.63B+", "OFF STR/OVERTIME/MTR");
  ("88.53", "OFF STR MTR/OUT LINE");
  ("80692", "COMVEH RES/OV TM LMT");
  ("17104H", "LOAD/UNLOAD ONLY");
  ("80.58.1", "CARSHARE PARKING");
  ("80.69AP+", "NO STOP/STANDING");
  ("8056E1", "WHITE ZONE");
  ("6344K2", "NO PARKING BETWEEN POSTED HOURS");
  ("80.58L", "PREFERENTIAL PARKING");
  ("80.53", "PARKED IN PARKWAY");
  ("8069BS", "NO PARK/STREET CLEAN");
  ("556", "8755");
  ("5201", "POSITION OF PLATES");
  ("8936", "RED CURB");
  ("80.56E4+", "RED ZONE");
  ("8061", "STNDNG IN ALLEY");
  ("8056", "YELLOW ZONE");
  ("80.72", "RED FLAG DAY");
  ("22507A", "OVERSIZED VEHICLE PARKING TOPHAM ST");
  ("22500L-", "DP-BLKNG ACCESS RAMP");
  ("80661D", "RESTRICTED ZONE");
  ("80.69AA+", "NO STOP/STAND");
  ("22500H", "DOUBLE PARKING");
  ("572521D", "MT FIRE RD NO PERMIT");
  ("87.55", "FOR SALE SIGN");
  ("8813B", "METER EXPIRED");
  ("031", "22523A");
  ("5202", "PERIOD OF DISPLAY");
  ("8069B", "NO PARKING");
  ("22511.1B", "PRK IN ELEC VEH SPACE");
  ("805.6", "WHITE ZONE");
  ("8056E4", "RED ZONE");
  ("22502A", "18 IN. CURB/2 WAY");
  ("89391C", "EXCEED TIME LMT");
  ("85.01", "REPAIRING VEH/STREET");
  ("8069C", "PKD OVER TIME LIMIT");
  ("80732", "EXCEED 72 HOURS");
  ("8606", "PK OTSD PSTD AR");
  ("8603", "PK IN PROH AREA");
  ("89391A", "STOP/STAND PROHB");
  ("8053", "PKD IN/ON PARKWAY");
  ("8939", "WHITE CURB");
  ("86.03", "CITY PARK/PROHIB");
  ("80714#", "PRIVATE PROPERTY");
  ("80.69.2", "COMM VEH OVER TIME LIMIT");
  ("572521E", "OBST FIRE RD");
  ("045", "4000");
  ("80.70", "NO STOPPING/ANTI-GRIDLOCK ZONE");
  ("8940", "PARKING AREA");
  ("21113", "PRKG PUBL GRNDS");
  ("80714", "PRIVATE PROPERTY");
  ("80.49+", "18 IN/CURB/COMM VEH");
  ("5204A", "EXPIRED TAGS");
  ("8051A", "LEFT SIDE OF ROADWAY");
  ("80692**", "COMVEH RES/OV TM C-3");
  ("22507.8C2", "DISABLED PARKING/CROSS HATCH");
  ("80.7", "NO STOPPING/ANTI-GRIDLOCK ZONE");
  ("225078A", "HANDICAP/NO DP ID");
  ("88.64A", "TIME LIMIT/CITY LOT");
  ("8501", "REPAIRING VEH/STREET");
  ("80.73.2", "EXCEED 72HRS-ST");
  ("22511.56B", "DP-REFUSE ID");
  ("8863B", "OFF STR/OVERTIME/MTR");
  ("80.56E2", "YELLOW ZONE");
  ("8056E3", "GREEN ZONE");
  ("80.71.3", "PARKING/FRONT YARD");
  ("030", "22522");
  ("8069A", "NO STOPPING/STANDING");
  ("8058L", "PREF PARKING");
  ("88.13B+", "METER EXP.");
  ("22500A", "WITHIN INTERSECTION");
  ("22507.8C", "DISABLED PARKING/CRO");
  ("80.54H1", "OVNIGHT PRK W/OUT PE");
  ("89355C", "ILGL EXT OF TM");
  ("2251156B", "MISUSE/DP PRIVILEGE");
  ("21211B", "BLK BIKE PATH OR LANE");
  ("4000A1", "NO EVIDENCE OF REG");
  ("22511.57", "DP- RO NOT PRESENT");
  ("22500C", "SAFETY ZONE/CURB");
  ("225078C2", "HANDICAP/CROSS HATCH");
  ("6344K7", "PARKING OUTSIDE PARKING STALLS");
  ("86.06", "CITY PARK/PROHIB");
  ("22500E", "BLOCKING DRIVEWAY");
  ("22500I-", "PARKED IN BUS ZONE");
  ("80.69.1A", "COMM TRAILER/22 FT.");
  ("225078C1", "HANDICAP/ON LINE");
  ("80691C", "PARKING UNHITCHED TR");
  ("22515", "UNATT/MOTOR ON");
  ("5200", "DISPLAY OF PLATES");
  ("17104C", "R/PRIV PARKING AREA");
  ("22526", "BLOCKING INTERSECTION");
  ("80.56E1", "WHITE ZONE");
  ("80691A", "COMM TRAILER/22 FT.");
  ("571", "2251157C");
  ("8709B", "PARK-PSTD AREAS");
  ("22514", "FIRE HYDRANT");
  ("029", "22521");
  ("80.69B", "NO PARKING");
  ("8803A", "PK OUTSD SPACE");
  ("8049", "WRG SD/NOT PRL");
  ("22500F", "PARKED ON SIDEWALK");
  ("8072", "PARK RED FLAG DAY");
  ("80.74", "CLEANING VEH/STREET");
  ("8074", "CLEANING VEH/STREET");
  ("8069AP", "NO STOP/STAND PM");
  ("8073C", "CATERING/CENTER CITY");
  ("8709K", "PK OVR PNTD LNS");
  ("80.56E3", "GREEN ZONE");
  ("8943", "PARK IN XWALK");
  ("22511.57C", "DP-ALTERED");
  ("017", "22502");
  ("21113A+", "PUBLIC GROUNDS");
  ("80731", "STORING VEH/ON STR");
  ("6344C", "COMMERCIAL - UNDESIG");
  ("225078B", "HANDICPD/BLOCKING");
  ("80.71.4", "PRIVATE PROPERTY");
  ("8069AA", "NO STOP/STAND AM");
  ("6344K8", "SIGN POSTED - NO PARKING")
].

Definition viol_aliases : gmap string string := list_to_map viol_aliases_items.

(** [df.loc[df["violation_code"] == key, "violation_description"] = value] *)
Definition set_description (key value : string) (df : DataFrame) : DataFrame :=
  (λ r, if bool_decide (violation_code r = Some key)
        then mkRow (label r) (make r) (violation_code r) (Some value)
        else r) <$> df.

(** One turn of the loop below, with the dictionary [dict]:
    [df.loc[...] = dict[key]]. *)
Definition correct_step (dict : gmap string string) (d : DataFrame) (key : string)
  : DataFrame :=
  match dict !! key with
  | Some value => set_description key value d
  | None => d
  end.

(** [for key in viol_aliases.keys(): ... = viol_aliases[key]] *)
Definition correct_descriptions (df : DataFrame) : DataFrame :=
  foldl (correct_step viol_aliases) df (viol_aliases_items.*1).

(** The description the loop over [keys] leaves in a row with code [c]
    and description [d]. *)
Definition corrected (dict : gmap string string) (keys : list string) (c d : cell)
  : cell :=
  match c with
  | Some k =>
      if bool_decide (k ∈ keys)
      then match dict !! k with Some v => Some v | None => d end
      else d
  | None => d
  end.

(** *** Output *)

Record OutRow := mkOut {
  index : nat;
  out_make : cell;
  out_description : cell
}.

(** [df.drop("violation_code", axis=1)], [reset_index(drop=True)] and
    [reset_index()]: the code column goes, the rows are numbered anew and
    the numbers become the first column. *)
Definition reset_index (df : DataFrame) : list OutRow :=
  imap (λ i r, mkOut i (make r) (violation_description r)) df.

(** [to_csv] writes a missing cell as the empty field. *)
Definition csv_field (c : cell) : string := default EmptyString c.

Definition csv_line (o : OutRow) : list string :=
  [pretty (index o); csv_field (out_make o); csv_field (out_description o)].

(** The name of the file [clean] writes below [output_filedir]. *)
Definition output_stem (stem : string) : string :=
  PyStr.replace "_raw" "_processed" stem.

Definition output_name (target_name : string) : string :=
  output_stem (PyStr.stem target_name) +:+ ".csv".

(** The frame before the code column is dropped. *)
Definition clean_frame (make_df : list MakeRecord) (records : list (cell * cell * cell))
  : DataFrame :=
  correct_descriptions (reconcile (replace_aliases make_df (read_csv records))).

(** [clean(target_file, output_filedir)]: [target_name] is the final
    component of [target_file], [make_df] the lines of
    [references/make.csv] and [records] the lines of [target_file].
    The result is the file written: its name and its lines. *)
Definition clean (make_df : list MakeRecord) (target_name : string)
    (records : list (cell * cell * cell)) : string * list (list string) :=
  (output_name target_name,
   csv_line <$> reset_index (clean_frame make_df records)).

(** A description the output can be read by: present and not empty. *)
Definition usable (c : cell) : Prop := ∃ s, c = Some s ∧ s ≠ EmptyString.

(** The output stem as the specification words it: a [_raw] suffix is
    replaced by [_processed], and [_processed] is appended to a stem
    without that suffix. *)
Definition ends_with (suffix s : string) : bool :=
  bool_decide (String.length suffix ≤ String.length s)
  && String.eqb
       (String.substring (String.length s - String.length suffix)
          (String.length suffix) s)
       suffix.

Definition spec_output_stem (stem : string) : string :=
  if ends_with "_raw" stem
  then String.substring 0 (String.length stem - 4) stem +:+ "_processed"
  else stem +:+ "_processed".

(** The repair of a swap-eligible row as the specification words it: the
    code goes to the description and the code becomes missing. *)
Definition spec_code_swap (r : Row) : Row :=
  mkRow (label r) (make r) None (violation_code r).

End Clean.


(** ** The driver and its file names *)

Module Driver.

(** The final component of [RAW_DATA_FILEPATH] in [download_raw]:
    [date_string + "_raw.csv"]. *)
Definition raw_name (date_string : string) : string :=
  date_string +:+ "_raw.csv".

End Driver.

(** ** The sample, seen from one line *)

Module Lines.

(** The line [k] of the data is decided by the draw [k] places after the
    start position [pos]: it is left out when that draw is above the
    fraction. *)
Definition decide_line (draws : nat → Q) (f : Sampler.pyfloat) (pos k : nat)
    (r : Sampler.RawRecord) : option Sampler.RawRecord :=
  if Sampler.fgt (Sampler.Finite (draws (pos + k))) f then None else Some r.

End Lines.

(** ** The loop over the makes, seen from one cell *)

Module Cells.

(** What the passes of [df.replace] over the lines of [make.csv] do to
    the value of one cell, in the order of the lines. *)
Definition replace_aliases_cell (make_df : list Clean.MakeRecord) (c : cell) : cell :=
  foldl (λ c data, Clean.replace_cell data.2 data.1 c) c (Clean.split_alias <$> make_df).

End Cells.

(** ** The data folders made at start-up *)

Module Bootstrap.

(** What is below [PROJECT_DIR]: the paths that are directories and the
    paths that are files, written relative to [PROJECT_DIR], which is a
    directory.  Nothing is below a path that does not exist. *)
Record tree := mkTree { dirs : gset string; files : gset string }.

(** [os.path.exists] *)
Definition path_exists (t : tree) (p : string) : bool :=
  bool_decide (p ∈ dirs t) || bool_decide (p ∈ files t).

Inductive error := OSError.

Definition data_folders : list string := ["raw"; "interim"; "external"; "processed"].

(** [PROJECT_DIR / "data" / _] *)
Definition folder_path (folder : string) : string := "data/" +:+ folder.

(** [if not os.path.exists(PROJECT_DIR / "data"): os.makedirs(...)] *)
Definition make_data (t : tree) : tree :=
  if path_exists t "data" then t else mkTree ({["data"]} ∪ dirs t) (files t).

(** [os.makedirs(p)] for a path [p] right below [data] that does not
    exist: a missing [data] is made on the way, and the call fails when
    [data] is a file. *)
Definition makedirs (t : tree) (p : string) : error + tree :=
  if bool_decide ("data" ∈ dirs t) then inr (mkTree ({[p]} ∪ dirs t) (files t))
  else if bool_decide ("data" ∈ files t) then inl OSError
  else inr (mkTree ({[p]} ∪ ({["data"]} ∪ dirs t)) (files t)).

(** [with open(p, "w"): pass] in a directory just made *)
Definition touch (t : tree) (p : string) : tree :=
  mkTree (dirs t) ({[p]} ∪ files t).

(** The body of the loop over [data_folders]. *)
Definition make_folder (t : tree) (folder : string) : error + tree :=
  if path_exists t (folder_path folder) then inr t
  else match makedirs t (folder_path folder) with
       | inr t' => inr (touch t' (folder_path folder +:+ "/.gitkeep"))
       | inl e => inl e
       end.

(** The loop stops at the first error. *)
Definition make_folders (t : tree) (folders : list string) : error + tree :=
  foldl (λ acc folder,
           match acc with
           | inr t' => make_folder t' folder
           | inl e => inl e
           end) (inr t) folders.

Definition bootstrap (t : tree) : error + tree :=
  make_folders (make_data t) data_folders.

(** A tree grows into another: every directory and every file is still
    there. *)
Definition grows (t t' : tree) : Prop := dirs t ⊆ dirs t' ∧ files t ⊆ files t'.

End Bootstrap.

(** * Properties *)

(** ** [str.replace] *)

Section StrReplace.

Import PyStr.

Lemma append_nil (b : string) : EmptyString +:+ b = b.
Proof. reflexivity. Qed.

Lemma append_cons c (a b : string) : String c a +:+ b = String c (a +:+ b).
Proof. reflexivity. Qed.

Lemma append_assoc (a b c : string) : (a +:+ b) +:+ c = a +:+ b +:+ c.
Proof.
  induction a as [|x a IH]; [done|]. by rewrite !append_cons, IH.
Qed.

Lemma append_empty_r (a : string) : a +:+ EmptyString = a.
Proof.
  induction a as [|x a IH]; [done|]. by rewrite append_cons, IH.
Qed.

Lemma length_append (a b : string) :
  String.length (a +:+ b) = String.length a + String.length b.
Proof.
  induction a as [|x a IH]; [done|]. rewrite append_cons. simpl. by rewrite IH.
Qed.

Lemma prefix_split (a s : string) :
  String.prefix a s = true → ∃ b, s = a +:+ b.
Proof.
  revert s. induction a as [|x a IH]; intros s H.
  - by exists s.
  - destruct s as [|y s]; simpl in H; [done|].
    destruct (ascii_dec x y) as [->|]; [|done].
    destruct (IH _ H) as [b ->]. by exists b.
Qed.

Lemma prefix_append (a b : string) : String.prefix a (a +:+ b) = true.
Proof.
  induction a as [|x a IH]; [by destruct b|].
  rewrite append_cons. simpl. by destruct (ascii_dec x x).
Qed.

Lemma occurs_tail (old : string) c s : ¬ occurs old (String c s) → ¬ occurs old s.
Proof. intros H (a & b & ->). apply H. by exists (String c a), b. Qed.

Lemma replace_from_cons (old new : string) c s :
  replace_from old new 0 (String c s) =
    if String.prefix old (String c s)
    then new +:+ replace_from old new (String.length old - 1) s
    else String c (replace_from old new 0 s).
Proof. reflexivity. Qed.

(** A string without [old] is left as it is. *)
Lemma replace_from_absent (old new s : string) :
  ¬ occurs old s → replace_from old new 0 s = s.
Proof.
  induction s as [|c s IH]; intros Habs; [done|].
  rewrite replace_from_cons.
  destruct (String.prefix old (String c s)) eqn:Hpre.
  - destruct Habs. apply prefix_split in Hpre as [b Hb].
    by exists EmptyString, b.
  - f_equal. apply IH. by eapply occurs_tail.
Qed.

(** Jumping over [k] characters of the input. *)
Lemma replace_from_skip (old new : string) (a s : string) :
  replace_from old new (String.length a) (a +:+ s) = replace_from old new 0 s.
Proof.
  induction a as [|c a IH]; [by destruct s|].
  rewrite append_cons. simpl. apply IH.
Qed.

Lemma prefix_cons x (a : string) y (s : string) :
  String.prefix (String x a) (String y s) = bool_decide (x = y) && String.prefix a s.
Proof. simpl. destruct (ascii_dec x y); by case_bool_decide. Qed.

Lemma prefix_empty x (a : string) : String.prefix (String x a) EmptyString = false.
Proof. reflexivity. Qed.

Lemma prefix_nil (s : string) : String.prefix EmptyString s = true.
Proof. by destruct s. Qed.

(** [_raw] is no prefix of a shorter, non-empty start of [a_raw...]:
    no end of [_raw] is a start of it. *)
Lemma prefix_raw_app (a x : string) :
  a ≠ EmptyString →
  String.prefix "_raw" (a +:+ "_raw" +:+ x) = String.prefix "_raw" a.
Proof.
  intros Ha.
  destruct a as [|c0 [|c1 [|c2 [|c3 a]]]]; [done|..];
    rewrite ?append_cons, ?append_nil, ?prefix_cons, ?prefix_empty;
    repeat case_bool_decide; simplify_eq; rewrite ?prefix_nil; done.
Qed.

(** Every occurrence is replaced: the scan of [a_raw...] is the scan of
    [a], then [_processed], then the scan of the rest. *)
Lemma replace_from_raw_app (a x : string) (k : nat) :
  k ≤ String.length a →
  replace_from "_raw" "_processed" k (a +:+ "_raw" +:+ x) =
    replace_from "_raw" "_processed" k a
      +:+ "_processed" +:+ replace_from "_raw" "_processed" 0 x.
Proof.
  revert k. induction a as [|c a IH]; intros k Hk.
  - assert (k = 0) as -> by (simpl in Hk; lia).
    rewrite append_nil. change (String.append "_raw" x) with (String "_" ("raw" +:+ x)).
    rewrite replace_from_cons.
    change (String "_" ("raw" +:+ x)) with ("_raw" +:+ x).
    rewrite prefix_append. simpl String.length. simpl Nat.sub.
    by rewrite (replace_from_skip _ _ "raw" x).
  - destruct k as [|k].
    + rewrite (append_cons c a), !replace_from_cons, <- (append_cons c a).
      rewrite prefix_raw_app by done.
      destruct (String.prefix "_raw" (String c a)) eqn:Hpre.
      * rewrite append_assoc. f_equal. apply IH.
        apply prefix_split in Hpre as [b Hb].
        change (String.append "_raw" b) with (String "_" ("raw" +:+ b)) in Hb.
        injection Hb as _ ->. rewrite length_append. simpl. lia.
      * rewrite (append_cons c (replace_from _ _ _ _)). f_equal. apply IH. lia.
    + rewrite (append_cons c a). simpl replace_from. apply IH. simpl in Hk. lia.
Qed.

End StrReplace.

(** ** The name of the cleaned file *)

Section OutputName.

Import PyStr.

Lemma contains_prefix (old s : string) :
  String.prefix old s = true → contains old s = true.
Proof. intros H. destruct s; cbn -[String.prefix]; by rewrite H. Qed.

Lemma contains_occurs (old s : string) : occurs old s → contains old s = true.
Proof.
  intros (a & b & ->). induction a as [|c a IH].
  - rewrite append_nil. apply contains_prefix, prefix_append.
  - rewrite append_cons. cbn -[String.prefix]. rewrite IH. apply orb_true_r.
Qed.

Lemma not_contains_occurs (old s : string) : contains old s = false → ¬ occurs old s.
Proof. intros H Ho. apply contains_occurs in Ho. congruence. Qed.

Lemma output_stem_absent (stem : string) :
  contains "_raw" stem = false → Clean.output_stem stem = stem.
Proof. intros H. apply replace_from_absent. by apply not_contains_occurs. Qed.

Lemma output_stem_app (a rest : string) :
  Clean.output_stem (a +:+ "_raw" +:+ rest) =
    Clean.output_stem a +:+ "_processed" +:+ Clean.output_stem rest.
Proof. apply replace_from_raw_app. lia. Qed.

End OutputName.

(** C4, as amended.  [clean] replaces every [_raw] of the stem of the
    source file by [_processed]: for a stem [stem] free of [_raw], the stem
    [stem_raw] gives [stem_processed], a stem that goes on after [_raw]
    has the rest rewritten the same way, and [stem] itself is kept as it
    is: nothing is appended, and the file is named [stem.csv]. *)
Theorem output_name_replaces_raw (stem : string) :
  PyStr.contains "_raw" stem = false →
  Clean.output_stem (stem +:+ "_raw") = stem +:+ "_processed"
  ∧ (∀ rest, Clean.output_stem (stem +:+ "_raw" +:+ rest) =
               stem +:+ "_processed" +:+ Clean.output_stem rest)
  ∧ Clean.output_stem stem = stem
  ∧ (∀ name, PyStr.stem name = stem → Clean.output_name name = stem +:+ ".csv").
Proof.
  intros Hfree. pose proof (output_stem_absent stem Hfree) as Hstem.
  assert (∀ rest, Clean.output_stem (stem +:+ "_raw" +:+ rest) =
                    stem +:+ "_processed" +:+ Clean.output_stem rest) as Happ.
  { intros rest. by rewrite output_stem_app, Hstem. }
  split; [|split; [done|split; [done|]]].
  - rewrite <- (append_empty_r "_raw"), (Happ EmptyString). done.
  - intros name Hname. unfold Clean.output_name. by rewrite Hname, Hstem.
Qed.

Lemma output_name_replaces_raw_witness :
  Clean.output_stem ("2020-03-01" +:+ "_raw") = "2020-03-01" +:+ "_processed"
  ∧ (∀ rest, Clean.output_stem ("2020-03-01" +:+ "_raw" +:+ rest) =
               "2020-03-01" +:+ "_processed" +:+ Clean.output_stem rest)
  ∧ Clean.output_stem "2020-03-01" = "2020-03-01"
  ∧ (∀ name, PyStr.stem name = "2020-03-01" →
             Clean.output_name name = "2020-03-01" +:+ ".csv").
Proof. apply (output_name_replaces_raw "2020-03-01"). reflexivity. Defined.

(** C4 as stated fails: the stem [citations] has no [_raw] suffix, and
    [clean] writes [citations.csv], not [citations_processed.csv]. *)
Lemma output_name_not_appended :
  Clean.ends_with "_raw" (PyStr.stem "citations.csv") = false
  ∧ Clean.output_name "citations.csv" = "citations.csv"
  ∧ Clean.output_name "citations.csv"
    ≠ Clean.spec_output_stem (PyStr.stem "citations.csv") +:+ ".csv".
Proof. by vm_compute. Qed.

(** ** The sampler *)

Section Sampling.

Import Sampler.

(** The two comparisons of the assertion decide the unit interval. *)
Lemma assertion_spec (f : pyfloat) :
  fle f (Finite 1) && fgt f (Finite 0) = true ↔ in_unit_interval f.
Proof.
  destruct f as [q| | |]; simpl; try (split; [done | tauto]).
  rewrite andb_true_iff, negb_true_iff, Qle_bool_iff.
  split.
  - intros [Hle Hgt]. split; [|done].
    apply Qnot_le_lt. intros H%Qle_bool_iff. congruence.
  - intros [Hgt Hle]. split; [done|].
    destruct (Qle_bool q 0) eqn:E; [|done].
    apply Qle_bool_iff in E. by apply Qle_not_lt in E.
Qed.

Variable draws : nat → Q.

(** A draw below 1 never exceeds the fraction 1. *)
Lemma skiprows_one (i pos : nat) :
  (∀ k, (0 <= draws k)%Q ∧ (draws k < 1)%Q) →
  (skiprows (Finite 1) i draws pos).1 = false.
Proof.
  intros Hdraws. unfold skiprows. case_bool_decide; [|done].
  simpl. apply negb_false_iff, Qle_bool_iff, Qlt_le_weak, Hdraws.
Qed.

Lemma skiprows_pos (f : pyfloat) (i pos : nat) :
  (skiprows f i draws pos).2 = if bool_decide (0 < i) then S pos else pos.
Proof. unfold skiprows. by case_bool_decide. Qed.

Lemma read_lines_one (data : list RawRecord) (i pos : nat) :
  (∀ k, (0 <= draws k)%Q ∧ (draws k < 1)%Q) →
  0 < i →
  read_lines (Finite 1) i data draws pos = (data, pos + length data).
Proof.
  intros Hdraws. revert i pos.
  induction data as [|r data IH]; intros i pos Hi; simpl.
  - unfold mret, Rand_ret. f_equal. lia.
  - unfold mbind, Rand_bind.
    pose proof (skiprows_one i pos Hdraws) as Hskip.
    pose proof (skiprows_pos (Finite 1) i pos) as Hpos.
    destruct (skiprows (Finite 1) i draws pos) as [skip pos'].
    simpl in Hskip, Hpos. subst skip. rewrite bool_decide_true in Hpos by done.
    subst pos'. rewrite IH by lia. unfold mret, Rand_ret. f_equal. lia.
Qed.

End Sampling.

(** C6.  [create_sample] stops at its assertion exactly when the fraction
    is outside (0, 1] (a NaN or an infinite fraction is outside); with a
    fraction inside it goes on and writes the sample.  The error the
    assertion raises is Python's [AssertionError]. *)
Theorem create_sample_fraction_check (stem str_frac : string)
    (sample_frac : Sampler.pyfloat) (data : list Sampler.RawRecord)
    (draws : nat → Q) (pos : nat) :
  ((Sampler.create_sample stem str_frac sample_frac data draws pos).1
     = inl Sampler.AssertionError
   ↔ ¬ Sampler.in_unit_interval sample_frac)
  ∧ (Sampler.in_unit_interval sample_frac ↔
     ∃ written, (Sampler.create_sample stem str_frac sample_frac data draws pos).1
                = inr written).
Proof.
  unfold Sampler.create_sample.
  pose proof (assertion_spec sample_frac) as Hspec.
  destruct (Sampler.fle sample_frac (Sampler.Finite 1)
            && Sampler.fgt sample_frac (Sampler.Finite 0)).
  - assert (Sampler.in_unit_interval sample_frac) as Hin by by apply Hspec.
    unfold mbind, Sampler.Rand_bind.
    destruct (Sampler.read_sample sample_frac data draws pos) as [df pos'].
    simpl. split; [split; [done | tauto]|]. split; [eauto | done].
  - assert (¬ Sampler.in_unit_interval sample_frac) as Hout.
    { intros H. apply Hspec in H. done. }
    simpl. split; [done|]. split; [done|]. by intros [? ?].
Qed.

(** C10.  With the fraction 1 and draws in [0, 1), no draw is above the
    fraction: [create_sample] keeps every data line of the source, in
    order, whatever the draws are; it reads one draw for each data line. *)
Theorem create_sample_fraction_one (draws : nat → Q) (stem str_frac : string)
    (data : list Sampler.RawRecord) (pos : nat) :
  (∀ k, (0 <= draws k)%Q ∧ (draws k < 1)%Q) →
  Sampler.create_sample stem str_frac (Sampler.Finite 1) data draws pos =
    (inr (stem +:+ "_" +:+ PyStr.replace "." EmptyString str_frac +:+ "samp.csv",
          Sampler.usecols <$> data),
     pos + length data).
Proof.
  intros Hdraws. unfold Sampler.create_sample, Sampler.read_sample. simpl.
  unfold mbind, Sampler.Rand_bind. simpl.
  by rewrite read_lines_one by (done || lia).
Qed.

Lemma create_sample_fraction_one_witness :
  Sampler.create_sample "2020-03-01_raw" "1.0" (Sampler.Finite 1)
    [Sampler.mkRaw (Some "TOYT") (Some "80.69BS") (Some "NO PARK/STREET CLEAN") [];
     Sampler.mkRaw (Some "HOND") (Some "000") None [Some "CA"]]
    (λ k, 1 # Pos.of_succ_nat (S k))%Q 0 =
    (inr ("2020-03-01_raw" +:+ "_" +:+ PyStr.replace "." EmptyString "1.0" +:+ "samp.csv",
          Sampler.usecols <$>
            [Sampler.mkRaw (Some "TOYT") (Some "80.69BS") (Some "NO PARK/STREET CLEAN") [];
             Sampler.mkRaw (Some "HOND") (Some "000") None [Some "CA"]]),
     0 + 2).
Proof.
  apply (create_sample_fraction_one (λ k, 1 # Pos.of_succ_nat (S k))%Q).
  intros k. split; [done|]. unfold Qlt. simpl. lia.
Defined.

(** ** The alias passes *)

Section AliasPasses.

Import Clean.

Lemma replace_lookup (to_replace : list string) (value : string)
    (df : DataFrame) (i : nat) :
  replace to_replace value df !! i =
    (λ r, mkRow (label r)
            (replace_cell to_replace value (make r))
            (replace_cell to_replace value (violation_code r))
            (replace_cell to_replace value (violation_description r))) <$> df !! i.
Proof. apply list_lookup_fmap. Qed.

Lemma replace_labels (to_replace : list string) (value : string) (df : DataFrame) :
  label <$> replace to_replace value df = label <$> df.
Proof.
  unfold replace. rewrite <- list_fmap_compose. by apply list_fmap_ext.
Qed.

Lemma replace_aliases_labels (make_df : list MakeRecord) (df : DataFrame) :
  label <$> replace_aliases make_df df = label <$> df.
Proof.
  unfold replace_aliases. generalize (split_alias <$> make_df) as passes.
  intros passes. revert df.
  induction passes as [|data passes IH]; intros df; simpl; [done|].
  by rewrite IH, replace_labels.
Qed.

(** The loop over the keys, for any dictionary and any list of keys. *)
Section Loop.

Variable dict : gmap string string.

Local Abbreviation correct_step := (correct_step dict).
Local Abbreviation corrected := (corrected dict).

Lemma corrected_singleton (key : string) (c d : cell) :
  corrected [key] c d =
    if bool_decide (c = Some key)
    then match dict !! key with Some v => Some v | None => d end
    else d.
Proof.
  destruct c as [k|]; simpl; [|done].
  destruct (decide (k = key)) as [->|Hne].
  - rewrite !bool_decide_true; [done.. | by apply list_elem_of_singleton].
  - rewrite !bool_decide_false; [done | congruence |].
    by rewrite list_elem_of_singleton.
Qed.

Lemma corrected_cons (key : string) (keys : list string) (c d : cell) :
  corrected keys c (corrected [key] c d) = corrected (key :: keys) c d.
Proof.
  destruct c as [k|]; simpl; [|done].
  destruct (decide (k = key)) as [->|Hne].
  - rewrite (bool_decide_true (key ∈ [key])) by by apply list_elem_of_singleton.
    rewrite (bool_decide_true (key ∈ key :: keys)) by by left.
    destruct (dict !! key); by case_bool_decide.
  - rewrite (bool_decide_false (k ∈ [key])) by by rewrite list_elem_of_singleton.
    apply (f_equal (λ b : bool, if b then _ else _)).
    apply bool_decide_ext. rewrite elem_of_cons. tauto.
Qed.

Lemma correct_step_lookup (df : DataFrame) (key : string) (i : nat) (r : Row) :
  df !! i = Some r →
  correct_step df key !! i =
    Some (mkRow (label r) (make r) (violation_code r)
            (corrected [key] (violation_code r) (violation_description r))).
Proof.
  intros Hr. rewrite corrected_singleton. unfold correct_step.
  destruct (dict !! key) as [v|].
  - unfold set_description. rewrite list_lookup_fmap, Hr. simpl.
    destruct r. by case_bool_decide.
  - rewrite Hr. destruct r. by case_bool_decide.
Qed.

Lemma correct_loop_lookup (keys : list string) (df : DataFrame) (i : nat) (r : Row) :
  df !! i = Some r →
  foldl correct_step df keys !! i =
    Some (mkRow (label r) (make r) (violation_code r)
            (corrected keys (violation_code r) (violation_description r))).
Proof.
  revert df r. induction keys as [|key keys IH]; intros df r Hr; simpl.
  - rewrite Hr. by destruct r as [l m [k|] d].
  - erewrite IH by by apply correct_step_lookup.
    simpl. by rewrite corrected_cons.
Qed.

Lemma correct_loop_length (keys : list string) (df : DataFrame) :
  length (foldl correct_step df keys) = length df.
Proof.
  revert df. induction keys as [|key keys IH]; intros df; simpl; [done|].
  rewrite IH. unfold correct_step. destruct (dict !! key); [|done].
  apply length_fmap.
Qed.

End Loop.

Lemma correct_descriptions_loop (df : DataFrame) :
  correct_descriptions df = foldl (correct_step viol_aliases) df viol_aliases_items.*1.
Proof. reflexivity. Qed.

(** After the whole loop a row with a code of the table carries the
    description of the table; every other row is as before. *)
Lemma correct_descriptions_lookup (df : DataFrame) (i : nat) (r : Row) :
  df !! i = Some r →
  correct_descriptions df !! i =
    Some (mkRow (label r) (make r) (violation_code r)
            (match violation_code r ≫= (viol_aliases !!.) with
             | Some v => Some v
             | None => violation_description r
             end)).
Proof.
  intros Hr. rewrite correct_descriptions_loop.
  rewrite (correct_loop_lookup _ _ _ _ _ Hr). f_equal. f_equal.
  unfold corrected. destruct (violation_code r) as [k|]; [|done].
  change (Some k ≫= (viol_aliases !!.)) with (viol_aliases !! k).
  case_bool_decide as Hin; [done|].
  assert (viol_aliases !! k = None) as ->; [|done].
  unfold viol_aliases. by apply not_elem_of_list_to_map_1.
Qed.

Lemma correct_descriptions_length (df : DataFrame) :
  length (correct_descriptions df) = length df.
Proof. rewrite correct_descriptions_loop. apply correct_loop_length. Qed.

Lemma correct_descriptions_column {A} (col : Row → A) (df : DataFrame) :
  (∀ r d, col (mkRow (label r) (make r) (violation_code r) d) = col r) →
  col <$> correct_descriptions df = col <$> df.
Proof.
  intros Hcol. apply list_eq. intros i. rewrite !list_lookup_fmap.
  destruct (df !! i) as [r|] eqn:Hr.
  - rewrite (correct_descriptions_lookup _ _ _ Hr). simpl. f_equal. apply Hcol.
  - apply lookup_ge_None in Hr.
    rewrite (proj2 (lookup_ge_None _ _)); [done|].
    by rewrite correct_descriptions_length.
Qed.

End AliasPasses.

(** C7.  Neither alias pass adds, removes or moves a row: the index
    labels of the frame are the same list after one [replace], after the
    whole loop over the makes and after the loop over the violation
    aliases; the latter writes descriptions only. *)
Theorem alias_passes_keep_rows (make_df : list Clean.MakeRecord)
    (to_replace : list string) (value : string) (df : DataFrame) :
  label <$> Clean.replace to_replace value df = label <$> df
  ∧ label <$> Clean.replace_aliases make_df df = label <$> df
  ∧ label <$> Clean.correct_descriptions df = label <$> df
  ∧ make <$> Clean.correct_descriptions df = make <$> df
  ∧ violation_code <$> Clean.correct_descriptions df = violation_code <$> df.
Proof.
  split; [apply replace_labels|].
  split; [apply replace_aliases_labels|].
  repeat split; by apply correct_descriptions_column.
Qed.



(** ** The reconciler *)

Section Reconciler.

Import Clean.

Lemma code_swap_filter_spec (same : gset cell) (r : Row) :
  code_swap_filter same r = true ↔
  violation_description r ∈ same ∨ violation_code r = Some "000".
Proof.
  unfold code_swap_filter.
  by rewrite orb_true_iff, !bool_decide_eq_true.
Qed.

Lemma swap_pass_lookup (df : DataFrame) (i : nat) :
  swap_pass df !! i =
    (λ r, if code_swap_filter (same_codes df) r then code_swap r else r) <$> df !! i.
Proof. apply list_lookup_fmap. Qed.

(** Every row of the swapped frame is a row of the frame, swapped when
    the filter selects it. *)
Lemma swap_pass_elem (df : DataFrame) (r : Row) :
  r ∈ swap_pass df ↔
  ∃ r0, r0 ∈ df
        ∧ r = if code_swap_filter (same_codes df) r0 then code_swap r0 else r0.
Proof.
  unfold swap_pass. rewrite list_elem_of_fmap. naive_solver.
Qed.

(** The row filter keeps a row unless both cells are missing. *)
Lemma drop_pass_elem (df : DataFrame) (r : Row) :
  r ∈ drop_pass df ↔
  r ∈ df ∧ ¬ (violation_code r = None ∧ violation_description r = None).
Proof.
  unfold drop_pass. rewrite list_elem_of_filter.
  destruct (violation_code r), (violation_description r); simpl; naive_solver.
Qed.

Lemma drop_pass_all (df : DataFrame) :
  (∀ r, r ∈ df → ¬ (violation_code r = None ∧ violation_description r = None)) →
  drop_pass df = df.
Proof.
  unfold drop_pass. induction df as [|r df IH]; intros Hall; [done|].
  rewrite filter_cons_True.
  - f_equal. apply IH. intros r' Hr'. apply Hall. by right.
  - specialize (Hall r (list_elem_of_here _ _)).
    destruct (violation_code r), (violation_description r); simpl; naive_solver.
Qed.

Lemma forallb_false_elem {A} (f : A → bool) (l : list A) :
  forallb f l = false → ∃ x, x ∈ l ∧ f x = false.
Proof.
  induction l as [|x l IH]; simpl; [done|].
  destruct (f x) eqn:E; simpl.
  - intros (y & ? & ?)%IH. exists y. split; [by right | done].
  - intros _. exists x. split; [by left | done].
Qed.

(** What a column shares: every cell of a column that holds a string,
    no cell of a column that is all missing. *)
Lemma column_set_spec (col : Row → cell) (df : DataFrame) (c : cell) :
  c ∈ column_set col df ↔ holds col df c ∧ ∃ r, r ∈ df ∧ col r ≠ None.
Proof.
  unfold column_set, holds.
  destruct (forallb (λ r, isna (col r)) df) eqn:Hall.
  - split; [by intros ?%not_elem_of_empty|]. intros [_ (r & Hr & Hc)].
    rewrite forallb_forall in Hall. apply list_elem_of_In, Hall in Hr.
    by destruct (col r).
  - rewrite elem_of_list_to_set, list_elem_of_fmap.
    apply forallb_false_elem in Hall as (r0 & Hr0 & Hc0). split.
    + intros (r & -> & Hr). split; [by exists r|].
      exists r0. split; [done|]. by destruct (col r0).
    + intros [(r & Hr & <-) _]. by exists r.
Qed.

Lemma same_codes_spec (df : DataFrame) (c : cell) :
  c ∈ same_codes df ↔
  (holds violation_code df c ∧ ∃ r, r ∈ df ∧ violation_code r ≠ None)
  ∧ (holds violation_description df c
     ∧ ∃ r, r ∈ df ∧ violation_description r ≠ None).
Proof. unfold same_codes. by rewrite elem_of_intersection, !column_set_spec. Qed.

(** Without the code 000, without a string that is a code and a
    description, and without missing cells in both columns, no row is
    swapped and no row is dropped. *)
Lemma reconcile_unchanged (df : DataFrame) :
  (∀ r, r ∈ df → violation_code r ≠ Some "000") →
  (∀ s, ¬ (holds violation_code df (Some s)
           ∧ holds violation_description df (Some s))) →
  ¬ (holds violation_code df None ∧ holds violation_description df None) →
  reconcile df = df.
Proof.
  intros Hsentinel Hstrings Hmissing.
  assert (∀ c, c ∉ same_codes df) as Hsame.
  { intros c [[Hc _] [Hd _]]%same_codes_spec.
    destruct c as [s|]; [by apply (Hstrings s) | by apply Hmissing]. }
  assert (swap_pass df = df) as Hswap.
  { unfold swap_pass. rewrite <- (list_fmap_id df) at 2.
    apply list_fmap_ext. intros i r Hr.
    destruct (code_swap_filter (same_codes df) r) eqn:Hf; [|done].
    apply code_swap_filter_spec in Hf as [Hf|Hf]; [by apply Hsame in Hf|].
    apply Hsentinel in Hf; [done|]. apply list_elem_of_lookup. eauto. }
  unfold reconcile. rewrite Hswap. apply drop_pass_all.
  intros r Hr [Hc Hd]. apply Hmissing. split; by exists r.
Qed.


End Reconciler.

(** C8.  The row filter of [clean] removes the rows whose code and
    description are both missing and no other row; a row whose two cells
    hold the empty string is kept. *)
Theorem drop_pass_only_missing_pairs (df : DataFrame) :
  (∀ r, r ∈ Clean.drop_pass df ↔
        r ∈ df ∧ ¬ (violation_code r = None ∧ violation_description r = None))
  ∧ (∀ r, r ∈ df →
          violation_code r = Some EmptyString →
          violation_description r = Some EmptyString →
          r ∈ Clean.drop_pass df)
  ∧ Clean.drop_pass df `sublist_of` df.
Proof.
  split; [intros r; apply drop_pass_elem|]. split.
  - intros r Hr Hc Hd. apply drop_pass_elem. split; [done|].
    intros [Hc' _]. congruence.
  - apply sublist_filter.
Qed.

(** C1, as amended.  For a swap-eligible row (its description is in
    [same_codes], or its code is the sentinel 000) the repair moves the old
    description into the code and sets the description to missing; label
    and make stay.  The repaired row is in the reconciled frame exactly when
    the old description was present. *)
Theorem swap_moves_description_into_code (df : DataFrame) (i : nat) (r : Row) :
  df !! i = Some r →
  violation_description r ∈ Clean.same_codes df ∨ violation_code r = Some "000" →
  Clean.swap_pass df !! i =
    Some (mkRow (label r) (make r) (violation_description r) None)
  ∧ (mkRow (label r) (make r) (violation_description r) None ∈ Clean.reconcile df
     ↔ violation_description r ≠ None).
Proof.
  intros Hr Heligible. apply code_swap_filter_spec in Heligible.
  assert (Clean.swap_pass df !! i =
            Some (mkRow (label r) (make r) (violation_description r) None)) as Hswap.
  { by rewrite swap_pass_lookup, Hr; simpl; rewrite Heligible. }
  split; [done|]. unfold Clean.reconcile. rewrite drop_pass_elem. simpl. split.
  - intros [_ Hkeep] Hd. by apply Hkeep.
  - intros Hd. split; [|by intros [? _]].
    apply list_elem_of_lookup. by exists i.
Qed.

Lemma swap_moves_description_into_code_witness :
  Clean.swap_pass
    [mkRow 0 (Some "HOND") (Some "80.69BS") (Some "NO PARK/STREET CLEAN");
     mkRow 1 (Some "TOYT") (Some "000") (Some "X")] !! 1 =
    Some (mkRow 1 (Some "TOYT") (Some "X") None)
  ∧ (mkRow 1 (Some "TOYT") (Some "X") None
       ∈ Clean.reconcile
           [mkRow 0 (Some "HOND") (Some "80.69BS") (Some "NO PARK/STREET CLEAN");
            mkRow 1 (Some "TOYT") (Some "000") (Some "X")]
     ↔ Some "X" ≠ None).
Proof.
  apply (swap_moves_description_into_code
           [mkRow 0 (Some "HOND") (Some "80.69BS") (Some "NO PARK/STREET CLEAN");
            mkRow 1 (Some "TOYT") (Some "000") (Some "X")] 1
           (mkRow 1 (Some "TOYT") (Some "000") (Some "X"))).
  - reflexivity.
  - right. reflexivity.
Defined.

(** C1 as stated fails: the row with code 000 and description X is
    swap-eligible and comes out with code X and a missing description, not
    with a missing code and the description 000. *)
Lemma swap_not_code_into_description :
  Clean.code_swap_filter
    (Clean.same_codes
       [mkRow 0 (Some "HOND") (Some "80.69BS") (Some "NO PARK/STREET CLEAN");
        mkRow 1 (Some "TOYT") (Some "000") (Some "X")])
    (mkRow 1 (Some "TOYT") (Some "000") (Some "X")) = true
  ∧ Clean.reconcile
      [mkRow 0 (Some "HOND") (Some "80.69BS") (Some "NO PARK/STREET CLEAN");
       mkRow 1 (Some "TOYT") (Some "000") (Some "X")]
    = [mkRow 0 (Some "HOND") (Some "80.69BS") (Some "NO PARK/STREET CLEAN");
       mkRow 1 (Some "TOYT") (Some "X") None]
  ∧ Clean.reconcile
      [mkRow 0 (Some "HOND") (Some "80.69BS") (Some "NO PARK/STREET CLEAN");
       mkRow 1 (Some "TOYT") (Some "000") (Some "X")]
    ≠ [mkRow 0 (Some "HOND") (Some "80.69BS") (Some "NO PARK/STREET CLEAN");
       Clean.spec_code_swap (mkRow 1 (Some "TOYT") (Some "000") (Some "X"))].
Proof. by vm_compute. Qed.

(** C2, as amended.  After the swap and the row filter no row has both
    cells missing; and a row carries the code 000 only when it was
    swapped and its description was 000 before. *)
Theorem reconcile_invariant (df : DataFrame) (r : Row) :
  r ∈ Clean.reconcile df →
  ¬ (violation_code r = None ∧ violation_description r = None)
  ∧ (violation_code r = Some "000" →
     ∃ r0, r0 ∈ df ∧ violation_description r0 = Some "000"
           ∧ r = Clean.code_swap r0).
Proof.
  unfold Clean.reconcile. rewrite drop_pass_elem, swap_pass_elem.
  intros [(r0 & Hr0 & Hr) Hkeep]. split; [done|]. intros Hcode.
  exists r0. split; [done|].
  destruct (Clean.code_swap_filter (Clean.same_codes df) r0) eqn:Hf.
  - subst r. by split.
  - subst r. exfalso.
    assert (Clean.code_swap_filter (Clean.same_codes df) r0 = true); [|congruence].
    apply code_swap_filter_spec. by right.
Qed.

Lemma reconcile_invariant_witness :
  ¬ (violation_code (mkRow 1 (Some "TOYT") (Some "000") None) = None
     ∧ violation_description (mkRow 1 (Some "TOYT") (Some "000") None) = None)
  ∧ (violation_code (mkRow 1 (Some "TOYT") (Some "000") None) = Some "000" →
     ∃ r0, r0 ∈ [mkRow 0 (Some "HOND") (Some "80.69BS") (Some "NO PARK/STREET CLEAN");
                 mkRow 1 (Some "TOYT") (Some "80.56E4+") (Some "000");
                 mkRow 2 (Some "FORD") (Some "000") (Some "RED ZONE")]
           ∧ violation_description r0 = Some "000"
           ∧ mkRow 1 (Some "TOYT") (Some "000") None = Clean.code_swap r0).
Proof.
  apply (reconcile_invariant
           [mkRow 0 (Some "HOND") (Some "80.69BS") (Some "NO PARK/STREET CLEAN");
            mkRow 1 (Some "TOYT") (Some "80.56E4+") (Some "000");
            mkRow 2 (Some "FORD") (Some "000") (Some "RED ZONE")]).
  assert (Clean.reconcile
            [mkRow 0 (Some "HOND") (Some "80.69BS") (Some "NO PARK/STREET CLEAN");
             mkRow 1 (Some "TOYT") (Some "80.56E4+") (Some "000");
             mkRow 2 (Some "FORD") (Some "000") (Some "RED ZONE")]
          = [mkRow 0 (Some "HOND") (Some "80.69BS") (Some "NO PARK/STREET CLEAN");
             mkRow 1 (Some "TOYT") (Some "000") None;
             mkRow 2 (Some "FORD") (Some "RED ZONE") None])
    as -> by (vm_compute; reflexivity).
  right. left.
Defined.

(** C2 as stated fails: a row whose code and description are both 000 is
    swapped onto itself and keeps the code 000 after the two passes. *)
Lemma reconcile_keeps_sentinel :
  Clean.reconcile
    [mkRow 0 (Some "HOND") (Some "80.69BS") (Some "NO PARK/STREET CLEAN");
     mkRow 1 (Some "TOYT") (Some "000") (Some "000")]
  = [mkRow 0 (Some "HOND") (Some "80.69BS") (Some "NO PARK/STREET CLEAN");
     mkRow 1 (Some "TOYT") (Some "000") None]
  ∧ ¬ (∀ r, r ∈ Clean.reconcile
                  [mkRow 0 (Some "HOND") (Some "80.69BS") (Some "NO PARK/STREET CLEAN");
                   mkRow 1 (Some "TOYT") (Some "000") (Some "000")] →
            violation_code r ≠ Some "000").
Proof.
  assert (Clean.reconcile
            [mkRow 0 (Some "HOND") (Some "80.69BS") (Some "NO PARK/STREET CLEAN");
             mkRow 1 (Some "TOYT") (Some "000") (Some "000")]
          = [mkRow 0 (Some "HOND") (Some "80.69BS") (Some "NO PARK/STREET CLEAN");
             mkRow 1 (Some "TOYT") (Some "000") None]) as E by by vm_compute.
  split; [done|]. rewrite E. intros H.
  by apply (H (mkRow 1 (Some "TOYT") (Some "000") None)); [right; left|].
Qed.




(** ** The written table *)

Section Output.

Import Clean.

(** The literal has no key twice, so the dictionary holds every item of
    the literal. *)
Lemma viol_aliases_keys_NoDup : NoDup viol_aliases_items.*1.
Proof. refine (bool_decide_unpack _ _). vm_compute. exact I. Qed.

Lemma viol_aliases_item (k v : string) :
  (k, v) ∈ viol_aliases_items ↔ viol_aliases !! k = Some v.
Proof. apply elem_of_list_to_map, viol_aliases_keys_NoDup. Qed.

(** Every description of the table of violation aliases is non-empty. *)
Lemma viol_aliases_usable (k v : string) :
  viol_aliases !! k = Some v → v ≠ EmptyString.
Proof.
  intros Hkv. unfold viol_aliases in Hkv. apply elem_of_list_to_map_2 in Hkv.
  assert (Forall (λ p : string * string, p.2 ≠ EmptyString) viol_aliases_items)
    as Hall.
  { refine (bool_decide_unpack _ _). vm_compute. exact I. }
  rewrite Forall_forall in Hall. apply (Hall _ Hkv).
Qed.

(** A missing cell and an empty one are both written as the empty
    field. *)
Lemma csv_field_usable (c : cell) : csv_field c ≠ EmptyString ↔ usable c.
Proof.
  unfold usable. destruct c as [s|]; simpl.
  - split; [by exists s | by intros (? & [= <-] & ?)].
  - split; [done | by intros (? & ? & ?)].
Qed.

Lemma reset_index_lookup (df : DataFrame) (k : nat) :
  reset_index df !! k = (λ r, mkOut k (make r) (violation_description r)) <$> df !! k.
Proof. apply list_lookup_imap. Qed.

End Output.

(** C3, as amended.  Row [k] of the output comes from row [k] of the
    reconciled frame.  When the code of that row is a key of the table of
    violation aliases, the output carries the table's description, which is
    usable; otherwise it carries the description the reconciler left.  So
    the written description is usable exactly when the code is a key or the
    reconciled description is usable; for a swapped row, whose description
    the swap made missing, exactly when its new code is a key. *)
Theorem clean_output_description (make_df : list Clean.MakeRecord)
    (records : list (cell * cell * cell)) (k : nat) (r : Row) :
  Clean.reconcile (Clean.replace_aliases make_df (read_csv records)) !! k = Some r →
  ∃ o, Clean.reset_index (Clean.clean_frame make_df records) !! k = Some o
    ∧ Clean.index o = k
    ∧ Clean.out_make o = make r
    ∧ Clean.out_description o =
        match violation_code r ≫= (Clean.viol_aliases !!.) with
        | Some v => Some v
        | None => violation_description r
        end
    ∧ (Clean.csv_field (Clean.out_description o) ≠ EmptyString ↔
       is_Some (violation_code r ≫= (Clean.viol_aliases !!.))
       ∨ Clean.usable (violation_description r))
    ∧ ((∃ r0, r = Clean.code_swap r0) →
       (Clean.csv_field (Clean.out_description o) ≠ EmptyString ↔
        is_Some (violation_code r ≫= (Clean.viol_aliases !!.)))).
Proof.
  intros Hr. unfold Clean.clean_frame.
  rewrite reset_index_lookup, (correct_descriptions_lookup _ _ _ Hr). simpl.
  eexists. split; [done|]. simpl. split; [done|]. split; [done|]. split; [done|].
  assert (Clean.csv_field
            match violation_code r ≫= (Clean.viol_aliases !!.) with
            | Some v => Some v
            | None => violation_description r
            end ≠ EmptyString
          ↔ is_Some (violation_code r ≫= (Clean.viol_aliases !!.))
            ∨ Clean.usable (violation_description r)) as Hiff.
  { rewrite csv_field_usable.
    destruct (violation_code r ≫= (Clean.viol_aliases !!.)) as [v|] eqn:Hv.
    - split; [by left|]. intros _. exists v. split; [done|].
      destruct (violation_code r) as [c|]; [|done]. simpl in Hv.
      by eapply viol_aliases_usable.
    - split; [by right|]. by intros [[? [=]]|?]. }
  split; [done|]. intros [r0 ->]. rewrite Hiff. simpl.
  split; [|by left]. intros [?|(? & [=] & _)]. done.
Qed.

Lemma clean_output_description_witness :
  ∃ o, Clean.reset_index
         (Clean.clean_frame [Clean.mkMake "TOYOTA" "TOYT,TOYO"]
            [(Some "HOND", Some "80.69BS", Some "NO PARK/STREET CLEAN");
             (Some "TOYT", Some "8056", Some "YELOW ZONE")]) !! 1 = Some o
    ∧ Clean.index o = 1
    ∧ Clean.out_make o = make (mkRow 1 (Some "TOYOTA") (Some "8056") (Some "YELOW ZONE"))
    ∧ Clean.out_description o =
        match violation_code (mkRow 1 (Some "TOYOTA") (Some "8056") (Some "YELOW ZONE"))
                ≫= (Clean.viol_aliases !!.) with
        | Some v => Some v
        | None =>
            violation_description (mkRow 1 (Some "TOYOTA") (Some "8056") (Some "YELOW ZONE"))
        end
    ∧ (Clean.csv_field (Clean.out_description o) ≠ EmptyString ↔
       is_Some (violation_code (mkRow 1 (Some "TOYOTA") (Some "8056") (Some "YELOW ZONE"))
                  ≫= (Clean.viol_aliases !!.))
       ∨ Clean.usable
           (violation_description
              (mkRow 1 (Some "TOYOTA") (Some "8056") (Some "YELOW ZONE"))))
    ∧ ((∃ r0, mkRow 1 (Some "TOYOTA") (Some "8056") (Some "YELOW ZONE")
              = Clean.code_swap r0) →
       (Clean.csv_field (Clean.out_description o) ≠ EmptyString ↔
        is_Some (violation_code (mkRow 1 (Some "TOYOTA") (Some "8056") (Some "YELOW ZONE"))
                   ≫= (Clean.viol_aliases !!.)))).
Proof.
  apply (clean_output_description [Clean.mkMake "TOYOTA" "TOYT,TOYO"]
           [(Some "HOND", Some "80.69BS", Some "NO PARK/STREET CLEAN");
            (Some "TOYT", Some "8056", Some "YELOW ZONE")] 1).
  vm_compute. reflexivity.
Defined.

(** C3 as stated fails: the row with code 000 and description X is
    swapped, survives the row filter with the code X, which is no key of
    the table, and is written with an empty description. *)
Lemma clean_writes_missing_description :
  Clean.clean [Clean.mkMake "TOYOTA" "TOYT,TOYO"] "2020-03-01_raw_01samp.csv"
    [(Some "HOND", Some "80.69BS", Some "NO PARK/STREET CLEAN");
     (Some "TOYT", Some "000", Some "X")]
  = ("2020-03-01_processed_01samp.csv",
     [["0"; "HOND"; "NO PARK/STREET CLEAN"]; ["1"; "TOYOTA"; EmptyString]])
  ∧ Clean.viol_aliases !! "X" = None
  ∧ ∃ o, Clean.reset_index
           (Clean.clean_frame [Clean.mkMake "TOYOTA" "TOYT,TOYO"]
              [(Some "HOND", Some "80.69BS", Some "NO PARK/STREET CLEAN");
               (Some "TOYT", Some "000", Some "X")]) !! 1 = Some o
         ∧ ¬ Clean.usable (Clean.out_description o).
Proof.
  split; [by vm_compute|]. split; [by vm_compute|].
  exists (Clean.mkOut 1 (Some "TOYOTA") None). split; [by vm_compute|].
  by intros (s & Hs & _).
Qed.

(** * Further properties *)

(** ** [str.split] and [str.join] *)

Section SplitJoin.

Import PyStr.

Lemma split_not_nil (sep : ascii) (s : string) : split sep s ≠ [].
Proof.
  induction s as [|c s IH]; simpl; [done|].
  destruct (Ascii.eqb c sep); [done|]. by destruct (split sep s).
Qed.

Lemma concat_cons (sep x : string) (l : list string) :
  l ≠ [] → String.concat sep (x :: l) = x +:+ sep +:+ String.concat sep l.
Proof. by destruct l. Qed.

Lemma contains_cons_false (old : string) c (s : string) :
  contains old (String c s) = false → contains old s = false.
Proof. cbn -[String.prefix]. by intros [_ ?]%orb_false_iff. Qed.

Lemma contains_char_cons (sep c : ascii) (s : string) :
  contains (String sep EmptyString) (String c s) =
    bool_decide (sep = c) || contains (String sep EmptyString) s.
Proof.
  cbn -[String.prefix]. by rewrite prefix_cons, prefix_nil, andb_true_r.
Qed.

Lemma contains_char_empty (sep : ascii) :
  contains (String sep EmptyString) EmptyString = false.
Proof. reflexivity. Qed.

Lemma split_free (sep : ascii) (s : string) :
  contains (String sep EmptyString) s = false → split sep s = [s].
Proof.
  induction s as [|c s IH]; [done|]. rewrite contains_char_cons.
  intros [Hc Hs]%orb_false_iff. simpl.
  destruct (Ascii.eqb_spec c sep) as [->|_]; [by rewrite bool_decide_true in Hc|].
  by rewrite IH.
Qed.

Lemma split_app_sep (sep : ascii) (x rest : string) :
  contains (String sep EmptyString) x = false →
  split sep (x +:+ String sep rest) = x :: split sep rest.
Proof.
  induction x as [|c x IH]; intros Hx.
  - rewrite append_nil. simpl. by rewrite Ascii.eqb_refl.
  - rewrite contains_char_cons in Hx. apply orb_false_iff in Hx as [Hc Hx].
    rewrite append_cons. simpl.
    destruct (Ascii.eqb_spec c sep) as [->|_]; [by rewrite bool_decide_true in Hc|].
    by rewrite IH.
Qed.

End SplitJoin.

(** X1.  Joining the pieces of [s.split(sep)] with [sep] gives [s] back,
    there is always at least one piece, and no piece holds the
    separator. *)
Theorem split_join (sep : ascii) (s : string) :
  String.concat (String sep EmptyString) (PyStr.split sep s) = s
  ∧ PyStr.split sep s ≠ []
  ∧ Forall (λ piece, PyStr.contains (String sep EmptyString) piece = false)
      (PyStr.split sep s).
Proof.
  split; [|split; [apply split_not_nil|]].
  - induction s as [|c s IH]; simpl; [done|].
    destruct (Ascii.eqb_spec c sep) as [->|Hne].
    + rewrite concat_cons by apply split_not_nil. by rewrite IH.
    + pose proof (split_not_nil sep s) as Hnil.
      destruct (PyStr.split sep s) as [|w ws]; [done|].
      destruct ws as [|w' ws]; simpl in *; [by rewrite IH|].
      rewrite append_cons. by rewrite IH.
  - induction s as [|c s IH]; simpl; [by repeat constructor|].
    destruct (Ascii.eqb_spec c sep) as [->|Hne]; [by constructor|].
    pose proof (split_not_nil sep s) as Hnil.
    destruct (PyStr.split sep s) as [|w ws]; [done|].
    apply Forall_cons in IH as [Hw Hws]. constructor; [|done].
    rewrite contains_char_cons, Hw. by rewrite bool_decide_false by congruence.
Qed.

(** X2.  A non-empty list of strings that hold no separator, joined
    with the separator, is split back into that list. *)
Theorem join_split (sep : ascii) (pieces : list string) :
  pieces ≠ [] →
  Forall (λ piece, PyStr.contains (String sep EmptyString) piece = false) pieces →
  PyStr.split sep (String.concat (String sep EmptyString) pieces) = pieces.
Proof.
  induction pieces as [|x pieces IH]; intros Hnil Hfree; [done|].
  apply Forall_cons in Hfree as [Hx Hfree].
  destruct pieces as [|y pieces]; [by apply split_free|].
  rewrite concat_cons by done.
  change (String sep EmptyString +:+ ?t) with (String sep t).
  rewrite split_app_sep by done. f_equal. by apply IH.
Qed.

Lemma join_split_witness :
  PyStr.split "," (String.concat "," ["TOYT"; "TOYO"; "TOY."]) = ["TOYT"; "TOYO"; "TOY."].
Proof.
  apply (join_split "," ["TOYT"; "TOYO"; "TOY."]).
  - done.
  - repeat constructor.
Defined.

(** ** File names *)

Section Names.

Import PyStr.

Lemma rfind_dot_free (s : string) : contains "." s = false → rfind_dot s = None.
Proof.
  induction s as [|c s IH]; [done|]. rewrite contains_char_cons.
  intros [Hc Hs]%orb_false_iff. simpl. rewrite (IH Hs).
  destruct (Ascii.eqb_spec c ".") as [->|_]; [by rewrite bool_decide_true in Hc|done].
Qed.

Lemma rfind_dot_app (a b : string) :
  rfind_dot (a +:+ b) =
    match rfind_dot b with
    | Some i => Some (String.length a + i)
    | None => rfind_dot a
    end.
Proof.
  induction a as [|c a IH]; [rewrite append_nil; by destruct (rfind_dot b)|].
  rewrite append_cons. simpl. rewrite IH. by destruct (rfind_dot b).
Qed.

Lemma substring_prefix (a b : string) :
  String.substring 0 (String.length a) (a +:+ b) = a.
Proof.
  induction a as [|c a IH]; [rewrite append_nil; by destruct b|].
  rewrite append_cons. simpl. by rewrite IH.
Qed.

(** The stem of [base.ext]. *)
Lemma stem_suffix (base ext : string) :
  base ≠ EmptyString → ext ≠ EmptyString → contains "." ext = false →
  stem (base +:+ String "." ext) = base.
Proof.
  intros Hbase Hext Hfree. unfold stem.
  rewrite rfind_dot_app. simpl rfind_dot. rewrite (rfind_dot_free _ Hfree). simpl.
  rewrite length_append. simpl.
  rewrite !bool_decide_true.
  - rewrite Nat.add_0_r. apply substring_prefix.
  - destruct ext; [done|]. simpl. lia.
  - destruct base; [done|]. simpl. lia.
Qed.

Lemma replace_char_cons (c x : ascii) (new s : string) :
  replace (String c EmptyString) new (String x s) =
    if bool_decide (c = x) then new +:+ replace (String c EmptyString) new s
    else String x (replace (String c EmptyString) new s).
Proof.
  unfold replace. rewrite replace_from_cons, prefix_cons, prefix_nil, andb_true_r.
  done.
Qed.

End Names.

(** X3.  [s.replace(c, "")] for a character [c], as in the name of the
    sample file, deletes every [c] and nothing else: the characters of
    the result are those of [s] other than [c], in order. *)
Theorem replace_char_deletes (c : ascii) (s : string) :
  String.list_ascii_of_string (PyStr.replace (String c EmptyString) EmptyString s)
  = filter (λ x, x ≠ c) (String.list_ascii_of_string s)
  ∧ PyStr.contains (String c EmptyString)
      (PyStr.replace (String c EmptyString) EmptyString s) = false.
Proof.
  split.
  - induction s as [|x s IH]; [done|]. rewrite replace_char_cons.
    change (String.list_ascii_of_string (String x s))
      with (x :: String.list_ascii_of_string s).
    case_bool_decide as Hx.
    + subst x. rewrite append_nil, filter_cons_False by naive_solver. done.
    + rewrite filter_cons_True by congruence. rewrite <- IH. done.
  - induction s as [|x s IH]; [done|]. rewrite replace_char_cons.
    case_bool_decide as Hx; [by rewrite append_nil|].
    rewrite contains_char_cons, IH. by rewrite bool_decide_false.
Qed.

(** X4.  The stem of a file name [base.ext], with a non-empty [base] and
    a non-empty [ext] without dot, is [base]: only the last suffix goes,
    dots inside [base] stay. *)
Theorem stem_drops_last_suffix (base ext : string) :
  base ≠ EmptyString → ext ≠ EmptyString → PyStr.contains "." ext = false →
  PyStr.stem (base +:+ "." +:+ ext) = base.
Proof. apply stem_suffix. Qed.

Lemma stem_drops_last_suffix_witness :
  PyStr.stem ("2020-03-01_raw_0.1" +:+ "." +:+ "csv") = "2020-03-01_raw_0.1".
Proof. by apply (stem_drops_last_suffix "2020-03-01_raw_0.1" "csv"). Defined.

(** X5.  A name without dot is its own stem, and so is a name whose only
    dot is the first character and a name that ends with a dot. *)
Theorem stem_without_suffix (name : string) :
  (PyStr.contains "." name = false → PyStr.stem name = name)
  ∧ (PyStr.contains "." name = false →
     PyStr.stem ("." +:+ name) = "." +:+ name)
  ∧ PyStr.stem (name +:+ ".") = name +:+ ".".
Proof.
  split; [|split].
  - intros Hfree. unfold PyStr.stem. by rewrite rfind_dot_free.
  - intros Hfree. unfold PyStr.stem.
    change (String.append "." name) with (String "."%char name).
    simpl PyStr.rfind_dot. by rewrite rfind_dot_free.
  - unfold PyStr.stem. rewrite rfind_dot_app. simpl PyStr.rfind_dot.
    rewrite length_append. simpl String.length.
    rewrite (bool_decide_false (_ + 0 < _)) by lia. by rewrite andb_false_r.
Qed.

(** X6.  The names along [main]: the raw file is [date_raw.csv], the
    sample made from it is [date_raw_<frac>samp.csv] and [clean] writes
    [date_processed_<frac>samp.csv], where [<frac>] is [str(sample_frac)]
    without dots, for a date and a fraction that hold no [_raw]. *)
Theorem pipeline_names (date_string str_frac : string)
    (sample_frac : Sampler.pyfloat) (data : list Sampler.RawRecord)
    (draws : nat → Q) (pos pos' : nat)
    (name : string) (records : list (cell * cell * cell)) :
  PyStr.contains "_raw" date_string = false →
  PyStr.contains "_raw"
    ("_" +:+ PyStr.replace "." EmptyString str_frac +:+ "samp") = false →
  Sampler.create_sample (PyStr.stem (Driver.raw_name date_string)) str_frac
    sample_frac data draws pos = (inr (name, records), pos') →
  name = date_string +:+ "_raw_" +:+ PyStr.replace "." EmptyString str_frac
           +:+ "samp.csv"
  ∧ Clean.output_name name =
      date_string +:+ "_processed_" +:+ PyStr.replace "." EmptyString str_frac
        +:+ "samp.csv".
Proof.
  intros Hdate Hfrac Hsample.
  assert (PyStr.stem (Driver.raw_name date_string) = date_string +:+ "_raw") as Hstem.
  { unfold Driver.raw_name.
    replace (date_string +:+ "_raw.csv")
      with ((date_string +:+ "_raw") +:+ String "." "csv")
      by by rewrite append_assoc.
    apply stem_suffix; [by destruct date_string | done..]. }
  rewrite Hstem in Hsample. unfold Sampler.create_sample in Hsample.
  destruct (Sampler.fle sample_frac (Sampler.Finite 1)
            && Sampler.fgt sample_frac (Sampler.Finite 0)); [|done].
  unfold mbind, Sampler.Rand_bind in Hsample.
  destruct (Sampler.read_sample sample_frac data draws pos) as [df p].
  injection Hsample as <- _ _.
  set (frac := PyStr.replace "." EmptyString str_frac) in *.
  change (PyStr.replace_from "." EmptyString 0 str_frac) with frac.
  split; [by rewrite !append_assoc|].
  unfold Clean.output_name.
  replace ((date_string +:+ "_raw") +:+ "_" +:+ frac +:+ "samp.csv")
    with (((date_string +:+ "_raw") +:+ "_" +:+ frac +:+ "samp") +:+ String "." "csv")
    by by rewrite !append_assoc.
  rewrite stem_suffix; [|by destruct date_string|done..].
  rewrite append_assoc, output_stem_app.
  rewrite (output_stem_absent _ Hdate), (output_stem_absent _ Hfrac).
  by rewrite !append_assoc.
Qed.

Lemma pipeline_names_witness :
  "2020-03-01_raw_01samp.csv"
  = "2020-03-01" +:+ "_raw_" +:+ PyStr.replace "." EmptyString "0.1" +:+ "samp.csv"
  ∧ Clean.output_name "2020-03-01_raw_01samp.csv" =
      "2020-03-01" +:+ "_processed_" +:+ PyStr.replace "." EmptyString "0.1"
        +:+ "samp.csv".
Proof.
  apply (pipeline_names "2020-03-01" "0.1" (Sampler.Finite (1 # 10))
           [Sampler.mkRaw (Some "TOYT") (Some "80.69BS") (Some "NO PARK/STREET CLEAN") [];
            Sampler.mkRaw (Some "HOND") (Some "000") None [Some "CA"]]
           (λ k, 1 # Pos.of_succ_nat (S (S (S (S (S (S (S (S (S (S k)))))))))))%Q 0 2
           "2020-03-01_raw_01samp.csv"
           [(Some "TOYT", Some "80.69BS", Some "NO PARK/STREET CLEAN");
            (Some "HOND", Some "000", None)]).
  - reflexivity.
  - reflexivity.
  - vm_compute. reflexivity.
Defined.

(** ** The sample, line by line *)

Section SampleLines.

Import Sampler.

Variable draws : nat → Q.

Local Abbreviation decide_line := (Lines.decide_line draws).

Lemma skiprows_data (f : pyfloat) (i pos : nat) :
  0 < i → skiprows f i draws pos = (fgt (Finite (draws pos)) f, S pos).
Proof. intros Hi. unfold skiprows. by rewrite bool_decide_true. Qed.

Lemma read_lines_spec (f : pyfloat) (data : list RawRecord) (i pos : nat) :
  0 < i →
  read_lines f i data draws pos =
    (omap id (imap (decide_line f pos) data), pos + length data).
Proof.
  revert i pos. induction data as [|r data IH]; intros i pos Hi.
  - simpl. unfold mret, Rand_ret. f_equal. lia.
  - simpl read_lines. unfold mbind, Rand_bind.
    rewrite skiprows_data, IH by lia. unfold mret, Rand_ret.
    rewrite imap_cons.
    rewrite (imap_ext (decide_line f pos ∘ S) (decide_line f (S pos))).
    + change (decide_line f pos 0 r)
        with (if fgt (Finite (draws (pos + 0))) f then None else Some r).
      rewrite Nat.add_0_r. simpl length. rewrite Nat.add_succ_r.
      by destruct (fgt (Finite (draws pos)) f).
    + intros k x _. unfold Lines.decide_line. simpl. by rewrite Nat.add_succ_r.
Qed.


Lemma sample_all (g : nat → RawRecord → option RawRecord) (data : list RawRecord) :
  (∀ k r, g k r = Some r) → omap id (imap g data) = data.
Proof.
  revert g. induction data as [|r data IH]; intros g Hg; [done|].
  rewrite imap_cons. simpl. rewrite Hg. simpl. f_equal. apply IH.
  intros k x. apply Hg.
Qed.

Lemma sample_none (g : nat → RawRecord → option RawRecord) (data : list RawRecord) :
  (∀ k r, g k r = None) → omap id (imap g data) = [].
Proof.
  revert g. induction data as [|r data IH]; intros g Hg; [done|].
  rewrite imap_cons. simpl. rewrite Hg. simpl. apply IH.
  intros k x. apply Hg.
Qed.

Lemma create_sample_ok (stem str_frac : string) (f : pyfloat)
    (data : list RawRecord) (pos : nat) :
  in_unit_interval f →
  create_sample stem str_frac f data draws pos =
    (inr (stem +:+ "_" +:+ PyStr.replace "." EmptyString str_frac +:+ "samp.csv",
          usecols <$> omap id (imap (decide_line f pos) data)),
     pos + length data).
Proof.
  intros Hf. apply assertion_spec in Hf. unfold create_sample. rewrite Hf.
  unfold read_sample, mbind, Rand_bind. simpl.
  by rewrite read_lines_spec by lia.
Qed.

End SampleLines.

(** X7.  The lines of the source that [read_csv] is given in
    [create_sample]: every data line is decided by its own draw, line [k]
    of the data being left out exactly when the draw [k] places after the
    start is above the fraction.  The header takes no draw, every data
    line takes one, kept or not. *)
Theorem read_sample_line_by_line (draws : nat → Q) (sample_frac : Sampler.pyfloat)
    (data : list Sampler.RawRecord) (pos : nat) :
  Sampler.read_sample sample_frac data draws pos =
    (omap id (imap (Lines.decide_line draws sample_frac pos) data),
     pos + length data).
Proof.
  unfold Sampler.read_sample, mbind, Sampler.Rand_bind. simpl.
  by rewrite read_lines_spec by lia.
Qed.


(** X9.  The two ends of the sampling, for a fraction [q] in (0, 1]: when
    no draw is above [q] the sample holds every data line, and when every
    draw is above [q] it holds the header only. *)
Theorem create_sample_extremes (draws : nat → Q) (stem str_frac : string)
    (q : Q) (data : list Sampler.RawRecord) (pos : nat) :
  Sampler.in_unit_interval (Sampler.Finite q) →
  ((∀ k, (draws k <= q)%Q) →
   (Sampler.create_sample stem str_frac (Sampler.Finite q) data draws pos).1
   = inr (stem +:+ "_" +:+ PyStr.replace "." EmptyString str_frac +:+ "samp.csv",
          Sampler.usecols <$> data))
  ∧ ((∀ k, (q < draws k)%Q) →
     (Sampler.create_sample stem str_frac (Sampler.Finite q) data draws pos).1
     = inr (stem +:+ "_" +:+ PyStr.replace "." EmptyString str_frac +:+ "samp.csv",
            [])).
Proof.
  intros Hq. rewrite (create_sample_ok draws _ _ _ _ _ Hq). simpl. split.
  - intros Hall.
    assert (∀ k r, Lines.decide_line draws (Sampler.Finite q) pos k r = Some r) as Hg.
    { intros k r. unfold Lines.decide_line, Sampler.fgt, Sampler.flt.
      by rewrite (proj2 (Qle_bool_iff _ _) (Hall _)). }
    by rewrite (sample_all _ _ Hg).
  - intros Hnone.
    assert (∀ k r, Lines.decide_line draws (Sampler.Finite q) pos k r = None) as Hg.
    { intros k r. unfold Lines.decide_line, Sampler.fgt, Sampler.flt.
      destruct (Qle_bool (draws (pos + k)) q) eqn:E; [|done].
      apply Qle_bool_iff, Qle_not_lt in E. destruct (E (Hnone _)). }
    by rewrite (sample_none _ _ Hg).
Qed.

Lemma create_sample_extremes_witness :
  ((∀ k : nat, (1 # 20 <= 1 # 10)%Q) →
   (Sampler.create_sample "2020-03-01_raw" "0.1" (Sampler.Finite (1 # 10))
      [Sampler.mkRaw (Some "TOYT") (Some "80.69BS") (Some "NO PARK/STREET CLEAN") []]
      (λ _ : nat, 1 # 20)%Q 0).1
   = inr ("2020-03-01_raw" +:+ "_" +:+ PyStr.replace "." EmptyString "0.1"
            +:+ "samp.csv",
          Sampler.usecols <$>
            [Sampler.mkRaw (Some "TOYT") (Some "80.69BS")
               (Some "NO PARK/STREET CLEAN") []]))
  ∧ ((∀ k : nat, (1 # 10 < 1 # 20)%Q) →
     (Sampler.create_sample "2020-03-01_raw" "0.1" (Sampler.Finite (1 # 10))
        [Sampler.mkRaw (Some "TOYT") (Some "80.69BS") (Some "NO PARK/STREET CLEAN") []]
        (λ _ : nat, 1 # 20)%Q 0).1
     = inr ("2020-03-01_raw" +:+ "_" +:+ PyStr.replace "." EmptyString "0.1"
              +:+ "samp.csv",
            [])).
Proof.
  apply (create_sample_extremes (λ _ : nat, 1 # 20)%Q "2020-03-01_raw" "0.1" (1 # 10)).
  split; by vm_compute.
Defined.

(** ** The loop over the makes *)

Section MakeLoop.

Import Clean.

(** One pass on one cell, and the passes in a row. *)
Local Abbreviation cell_step :=
  (λ (c : cell) (data : string * list string), replace_cell data.2 data.1 c).

Lemma replace_loop_lookup (passes : list (string * list string))
    (df : DataFrame) (i : nat) :
  foldl (λ d data, replace data.2 data.1 d) df passes !! i =
    (λ r, mkRow (label r)
            (foldl cell_step (make r) passes)
            (foldl cell_step (violation_code r) passes)
            (foldl cell_step (violation_description r) passes)) <$> df !! i.
Proof.
  revert df. induction passes as [|data passes IH]; intros df; simpl.
  - by destruct (df !! i) as [[]|].
  - rewrite IH, replace_lookup. by destruct (df !! i).
Qed.

Lemma replace_aliases_lookup (make_df : list MakeRecord) (df : DataFrame) (i : nat) :
  replace_aliases make_df df !! i =
    (λ r, mkRow (label r)
            (Cells.replace_aliases_cell make_df (make r))
            (Cells.replace_aliases_cell make_df (violation_code r))
            (Cells.replace_aliases_cell make_df (violation_description r)))
      <$> df !! i.
Proof. apply replace_loop_lookup. Qed.

Lemma cell_loop_missing (passes : list (string * list string)) :
  foldl cell_step None passes = None.
Proof. induction passes as [|data passes IH]; simpl; done. Qed.

Lemma cell_loop_fixed (passes : list (string * list string)) (s : string) :
  (∀ data, data ∈ passes → s ∉ data.2) →
  foldl cell_step (Some s) passes = Some s.
Proof.
  induction passes as [|data passes IH]; intros Hfree; simpl; [done|].
  rewrite bool_decide_false by (apply Hfree; by left).
  apply IH. intros d Hd. apply Hfree. by right.
Qed.

Lemma split_alias_free (make_df : list MakeRecord) (s : string) :
  (∀ m, m ∈ make_df → s ∉ PyStr.split "," (alias m)) →
  ∀ data, data ∈ split_alias <$> make_df → s ∉ data.2.
Proof.
  intros Hfree data (m & -> & Hm)%list_elem_of_fmap. simpl. by apply Hfree.
Qed.

Lemma replace_aliases_length (make_df : list MakeRecord) (df : DataFrame) :
  length (replace_aliases make_df df) = length df.
Proof.
  rewrite <- (length_fmap label), replace_aliases_labels. apply length_fmap.
Qed.

End MakeLoop.

(** X10.  The whole loop over the makes works cell by cell: the new
    value of a cell depends on its old value and on [make.csv] only.  A
    missing cell stays missing, and a cell whose value is an alias of no
    make is left as it is.  This holds in all three columns. *)
Theorem replace_aliases_cells (make_df : list Clean.MakeRecord)
    (df : DataFrame) (i : nat) (r : Row) :
  df !! i = Some r →
  ∃ r', Clean.replace_aliases make_df df !! i = Some r'
    ∧ label r' = label r
    ∧ ∀ col : Row → cell,
        col ∈ [make; violation_code; violation_description] →
        col r' = Cells.replace_aliases_cell make_df (col r)
        ∧ (col r = None → col r' = None)
        ∧ (∀ s, col r = Some s →
                (∀ m, m ∈ make_df → s ∉ PyStr.split "," (Clean.alias m)) →
                col r' = Some s).
Proof.
  intros Hr. eexists. split; [by rewrite replace_aliases_lookup, Hr|].
  split; [done|]. intros col Hcol.
  assert (∀ c : cell,
    (c = None → Cells.replace_aliases_cell make_df c = None)
    ∧ (∀ s, c = Some s →
            (∀ m, m ∈ make_df → s ∉ PyStr.split "," (Clean.alias m)) →
            Cells.replace_aliases_cell make_df c = Some s)) as Hcell.
  { intros c. split.
    - intros ->. apply cell_loop_missing.
    - intros s -> Hfree. by apply cell_loop_fixed, split_alias_free. }
  apply elem_of_cons in Hcol as [->|Hcol]; [split; [done | apply Hcell]|].
  apply elem_of_cons in Hcol as [->|Hcol]; [split; [done | apply Hcell]|].
  apply list_elem_of_singleton in Hcol as ->. split; [done | apply Hcell].
Qed.

Lemma replace_aliases_cells_witness :
  ∃ r', Clean.replace_aliases
          [Clean.mkMake "TOYOTA" "TOYT,TOYO"; Clean.mkMake "HONDA" "HOND"]
          [mkRow 0 (Some "HOND") (Some "80.69BS") None] !! 0 = Some r'
    ∧ label r' = label (mkRow 0 (Some "HOND") (Some "80.69BS") None)
    ∧ ∀ col : Row → cell,
        col ∈ [make; violation_code; violation_description] →
        col r' = Cells.replace_aliases_cell
                   [Clean.mkMake "TOYOTA" "TOYT,TOYO"; Clean.mkMake "HONDA" "HOND"]
                   (col (mkRow 0 (Some "HOND") (Some "80.69BS") None))
        ∧ (col (mkRow 0 (Some "HOND") (Some "80.69BS") None) = None → col r' = None)
        ∧ (∀ s, col (mkRow 0 (Some "HOND") (Some "80.69BS") None) = Some s →
                (∀ m, m ∈ [Clean.mkMake "TOYOTA" "TOYT,TOYO";
                           Clean.mkMake "HONDA" "HOND"] →
                      s ∉ PyStr.split "," (Clean.alias m)) →
                col r' = Some s).
Proof.
  apply (replace_aliases_cells
           [Clean.mkMake "TOYOTA" "TOYT,TOYO"; Clean.mkMake "HONDA" "HOND"]
           [mkRow 0 (Some "HOND") (Some "80.69BS") None] 0).
  reflexivity.
Defined.

(** X11.  When a value is an alias of several makes, the make listed
    first in [make.csv] wins: a cell holding an alias of the make [m], and
    of no make listed before [m], ends as the name of [m], provided that
    name is not itself an alias of a make listed after [m]. *)
Theorem replace_aliases_first_wins (before after : list Clean.MakeRecord)
    (m : Clean.MakeRecord) (df : DataFrame) (i : nat) (r : Row)
    (col : Row → cell) (s : string) :
  df !! i = Some r →
  col ∈ [make; violation_code; violation_description] →
  col r = Some s →
  (∀ m0, m0 ∈ before → s ∉ PyStr.split "," (Clean.alias m0)) →
  s ∈ PyStr.split "," (Clean.alias m) →
  (∀ m1, m1 ∈ after → Clean.canonical m ∉ PyStr.split "," (Clean.alias m1)) →
  ∃ r', Clean.replace_aliases (before ++ m :: after) df !! i = Some r'
        ∧ col r' = Some (Clean.canonical m).
Proof.
  intros Hr Hcol Hs Hbefore Hm Hafter.
  eexists. split; [by rewrite replace_aliases_lookup, Hr|].
  assert (Cells.replace_aliases_cell (before ++ m :: after) (Some s)
          = Some (Clean.canonical m)) as Hcell.
  { unfold Cells.replace_aliases_cell. rewrite fmap_app, foldl_app.
    rewrite cell_loop_fixed by by apply split_alias_free.
    rewrite fmap_cons. simpl. rewrite bool_decide_true by done.
    by apply cell_loop_fixed, split_alias_free. }
  apply elem_of_cons in Hcol as [->|Hcol]; [simpl; by rewrite Hs|].
  apply elem_of_cons in Hcol as [->|Hcol]; [simpl; by rewrite Hs|].
  apply list_elem_of_singleton in Hcol as ->. simpl. by rewrite Hs.
Qed.

Lemma replace_aliases_first_wins_witness :
  ∃ r', Clean.replace_aliases
          ([Clean.mkMake "HONDA" "HOND"]
             ++ Clean.mkMake "TOYOTA" "TOYT,TOYO" :: [Clean.mkMake "TOYO TIRES" "TOYO"])
          [mkRow 0 (Some "TOYO") (Some "80.69BS") None] !! 0 = Some r'
        ∧ make r' = Some (Clean.canonical (Clean.mkMake "TOYOTA" "TOYT,TOYO")).
Proof.
  apply (replace_aliases_first_wins [Clean.mkMake "HONDA" "HOND"]
           [Clean.mkMake "TOYO TIRES" "TOYO"] (Clean.mkMake "TOYOTA" "TOYT,TOYO")
           [mkRow 0 (Some "TOYO") (Some "80.69BS") None] 0
           (mkRow 0 (Some "TOYO") (Some "80.69BS") None) make "TOYO").
  - reflexivity.
  - left.
  - reflexivity.
  - intros m0 ->%list_elem_of_singleton.
    refine (bool_decide_unpack _ _). vm_compute. exact I.
  - refine (bool_decide_unpack _ _). vm_compute. exact I.
  - intros m1 ->%list_elem_of_singleton.
    refine (bool_decide_unpack _ _). vm_compute. exact I.
Defined.

(** ** The frame along [clean] *)

Section Frame.

Import Clean.

Lemma read_csv_labels (records : list (cell * cell * cell)) :
  label <$> read_csv records = seq 0 (length records).
Proof.
  unfold read_csv. rewrite fmap_imap.
  rewrite (imap_ext _ (λ n _, id n)) by done.
  etrans; [apply (imap_seq_0 records id) | apply list_fmap_id].
Qed.

Lemma swap_pass_column {A} (col : Row → A) (df : DataFrame) :
  (∀ r, col (code_swap r) = col r) → col <$> swap_pass df = col <$> df.
Proof.
  intros Hcol. unfold swap_pass. rewrite <- list_fmap_compose.
  apply list_fmap_ext. intros i r _. simpl.
  by destruct (code_swap_filter (same_codes df) r).
Qed.

Lemma reconcile_column {A} (col : Row → A) (df : DataFrame) :
  (∀ r, col (code_swap r) = col r) →
  col <$> reconcile df `sublist_of` col <$> df.
Proof.
  intros Hcol. rewrite <- (swap_pass_column col df Hcol).
  apply fmap_sublist, sublist_filter.
Qed.

Lemma reconcile_length (df : DataFrame) : length (reconcile df) ≤ length df.
Proof.
  rewrite <- (length_fmap label (reconcile df)), <- (length_fmap label df).
  by apply sublist_length, reconcile_column.
Qed.

Lemma reset_index_length (df : DataFrame) : length (reset_index df) = length df.
Proof. apply length_imap. Qed.

Lemma clean_lines (make_df : list MakeRecord) (target_name : string)
    (records : list (cell * cell * cell)) :
  (clean make_df target_name records).2
  = csv_line <$> reset_index
      (correct_descriptions (reconcile (replace_aliases make_df (read_csv records)))).
Proof. reflexivity. Qed.

Lemma clean_lines_lookup (make_df : list MakeRecord) (target_name : string)
    (records : list (cell * cell * cell)) (k : nat) :
  (clean make_df target_name records).2 !! k =
    (λ r, [pretty k; csv_field (make r);
           csv_field (match violation_code r ≫= (viol_aliases !!.) with
                      | Some v => Some v
                      | None => violation_description r
                      end)])
      <$> reconcile (replace_aliases make_df (read_csv records)) !! k.
Proof.
  rewrite clean_lines, list_lookup_fmap, reset_index_lookup.
  destruct (reconcile (replace_aliases make_df (read_csv records)) !! k)
    as [r|] eqn:Hr.
  - by rewrite (correct_descriptions_lookup _ _ _ Hr).
  - apply lookup_ge_None in Hr.
    rewrite (proj2 (lookup_ge_None (correct_descriptions _) k)); [done|].
    by rewrite correct_descriptions_length.
Qed.

End Frame.

(** X12.  The reconciler removes rows and does nothing else to the
    table's shape: the labels and makes of the reconciled frame are a
    sublist of those of the frame (no row is added, moved or doubled, no
    make is touched), and every row that is left is a row of the frame as
    it was or with the description moved into the code. *)
Theorem reconcile_only_removes (df : DataFrame) :
  (λ r, (label r, make r)) <$> Clean.reconcile df
    `sublist_of` (λ r, (label r, make r)) <$> df
  ∧ length (Clean.reconcile df) ≤ length df
  ∧ ∀ r, r ∈ Clean.reconcile df →
         ∃ r0, r0 ∈ df ∧ (r = r0 ∨ r = Clean.code_swap r0).
Proof.
  split; [by apply reconcile_column|]. split; [apply reconcile_length|].
  intros r [(r0 & Hr0 & ->)%swap_pass_elem _]%drop_pass_elem.
  exists r0. split; [done|].
  destruct (Clean.code_swap_filter _ _); auto.
Qed.

(** X13.  From the file read to the frame written [clean] keeps the
    order of the rows: the labels of the frame, before the index is
    reset, are a sublist of 0, 1, ..., n-1 for the n records read. *)
Theorem clean_frame_keeps_order (make_df : list Clean.MakeRecord)
    (records : list (cell * cell * cell)) :
  label <$> Clean.clean_frame make_df records `sublist_of` seq 0 (length records).
Proof.
  unfold Clean.clean_frame.
  rewrite correct_descriptions_column by done.
  etrans; [by apply (reconcile_column label)|].
  by rewrite replace_aliases_labels, read_csv_labels.
Qed.

(** X14.  The lines [clean] writes: one for every row the reconciler
    left, never more than the records read (none for an empty file), each
    with three fields, the first of which is the position of the line
    counted from 0. *)
Theorem clean_lines_indexed (make_df : list Clean.MakeRecord) (target_name : string)
    (records : list (cell * cell * cell)) :
  length (Clean.clean make_df target_name records).2
    = length (Clean.reconcile (Clean.replace_aliases make_df (read_csv records)))
  ∧ length (Clean.clean make_df target_name records).2 ≤ length records
  ∧ ∀ k line, (Clean.clean make_df target_name records).2 !! k = Some line →
              ∃ m d, line = [pretty k; m; d].
Proof.
  assert (length (Clean.clean make_df target_name records).2
          = length (Clean.reconcile
                      (Clean.replace_aliases make_df (read_csv records)))) as Hlen.
  { by rewrite clean_lines, length_fmap, reset_index_length,
      correct_descriptions_length. }
  split; [done|]. split.
  - rewrite Hlen.
    etrans; [apply reconcile_length|].
    rewrite replace_aliases_length. unfold read_csv. by rewrite length_imap.
  - intros k line. rewrite clean_lines_lookup.
    destruct (Clean.reconcile _ !! k) as [r|]; [|done].
    intros [= <-]. eauto.
Qed.

(** X15.  Correcting the descriptions twice is the same as correcting
    them once: the codes decide the result and the loop does not change
    them. *)
Theorem correct_descriptions_idempotent (df : DataFrame) :
  Clean.correct_descriptions (Clean.correct_descriptions df)
  = Clean.correct_descriptions df.
Proof.
  apply list_eq. intros i.
  destruct (df !! i) as [r|] eqn:Hr.
  - pose proof (correct_descriptions_lookup _ _ _ Hr) as Hr'.
    rewrite (correct_descriptions_lookup _ _ _ Hr'), Hr'. simpl.
    by destruct (violation_code r ≫= (Clean.viol_aliases !!.)).
  - apply lookup_ge_None in Hr.
    rewrite !(proj2 (lookup_ge_None _ _)); [done|..];
      by rewrite ?correct_descriptions_length.
Qed.

(** X16.  On an input that needs no repair [clean] keeps every row: when,
    after the makes are normalised, no code is 000, no string is both a
    code and a description, and missing cells do not occur in both
    columns, line [k] of the output is made from record [k] of the input:
    its position, its normalised make, and the description of the table
    of violation aliases when its code is a key of the table, its own
    description otherwise. *)
Theorem clean_keeps_clean_input (make_df : list Clean.MakeRecord)
    (target_name : string) (records : list (cell * cell * cell)) :
  (∀ r, r ∈ Clean.replace_aliases make_df (read_csv records) →
        violation_code r ≠ Some "000") →
  (∀ s, ¬ (Clean.holds violation_code
             (Clean.replace_aliases make_df (read_csv records)) (Some s)
           ∧ Clean.holds violation_description
               (Clean.replace_aliases make_df (read_csv records)) (Some s))) →
  ¬ (Clean.holds violation_code
       (Clean.replace_aliases make_df (read_csv records)) None
     ∧ Clean.holds violation_description
         (Clean.replace_aliases make_df (read_csv records)) None) →
  (Clean.clean make_df target_name records).2
  = imap (λ k r, [pretty k; Clean.csv_field (make r);
                  Clean.csv_field
                    (match violation_code r ≫= (Clean.viol_aliases !!.) with
                     | Some v => Some v
                     | None => violation_description r
                     end)])
      (Clean.replace_aliases make_df (read_csv records))
  ∧ length (Clean.clean make_df target_name records).2 = length records.
Proof.
  intros Hsentinel Hstrings Hmissing.
  assert ((Clean.clean make_df target_name records).2
          = imap (λ k r, [pretty k; Clean.csv_field (make r);
                          Clean.csv_field
                            (match violation_code r ≫= (Clean.viol_aliases !!.) with
                             | Some v => Some v
                             | None => violation_description r
                             end)])
              (Clean.replace_aliases make_df (read_csv records))) as Hlines.
  { apply list_eq. intros k.
    by rewrite clean_lines_lookup, reconcile_unchanged, list_lookup_imap. }
  split; [done|].
  rewrite Hlines, length_imap, replace_aliases_length.
  unfold read_csv. apply length_imap.
Qed.

Lemma clean_keeps_clean_input_witness :
  (Clean.clean [Clean.mkMake "TOYOTA" "TOYT,TOYO"] "2020-03-01_raw_01samp.csv"
     [(Some "TOYT", Some "80.69BS", Some "NO PARK/STREET CLEAN");
      (Some "HOND", Some "8056", Some "YELOW ZONE")]).2
  = imap (λ k r, [pretty k; Clean.csv_field (make r);
                  Clean.csv_field
                    (match violation_code r ≫= (Clean.viol_aliases !!.) with
                     | Some v => Some v
                     | None => violation_description r
                     end)])
      (Clean.replace_aliases [Clean.mkMake "TOYOTA" "TOYT,TOYO"]
         (read_csv [(Some "TOYT", Some "80.69BS", Some "NO PARK/STREET CLEAN");
                    (Some "HOND", Some "8056", Some "YELOW ZONE")]))
  ∧ length
      (Clean.clean [Clean.mkMake "TOYOTA" "TOYT,TOYO"] "2020-03-01_raw_01samp.csv"
         [(Some "TOYT", Some "80.69BS", Some "NO PARK/STREET CLEAN");
          (Some "HOND", Some "8056", Some "YELOW ZONE")]).2
    = length [(Some "TOYT", Some "80.69BS", Some "NO PARK/STREET CLEAN");
              (Some "HOND", Some "8056", Some "YELOW ZONE")].
Proof.
  assert (Clean.replace_aliases [Clean.mkMake "TOYOTA" "TOYT,TOYO"]
            (read_csv [(Some "TOYT", Some "80.69BS", Some "NO PARK/STREET CLEAN");
                       (Some "HOND", Some "8056", Some "YELOW ZONE")])
          = [mkRow 0 (Some "TOYOTA") (Some "80.69BS") (Some "NO PARK/STREET CLEAN");
             mkRow 1 (Some "HOND") (Some "8056") (Some "YELOW ZONE")]) as Hdf
    by (vm_compute; reflexivity).
  apply (clean_keeps_clean_input [Clean.mkMake "TOYOTA" "TOYT,TOYO"]);
    rewrite Hdf.
  - apply Forall_forall. repeat constructor; done.
  - intros s [(r1 & Hr1 & Hc) (r2 & Hr2 & Hd)].
    decompose_list_elem_of; subst; simpl in *; congruence.
  - intros [(r1 & Hr1 & Hc) _].
    decompose_list_elem_of; subst; simpl in *; congruence.
Defined.

(** ** No [_raw] in the name of the cleaned file *)

Section NoRaw.

Import PyStr.

Lemma contains_step (old : string) c (s : string) :
  contains old (String c s) = String.prefix old (String c s) || contains old s.
Proof. reflexivity. Qed.

Lemma contains_processed (t : string) :
  contains "_raw" ("_processed" +:+ t) = contains "_raw" t.
Proof.
  change ("_processed" +:+ t)
    with (String "_" (String "p" (String "r" (String "o" (String "c"
           (String "e" (String "s" (String "s" (String "e" (String "d" t)))))))))).
  rewrite !contains_step, !prefix_cons.
  repeat (rewrite (bool_decide_false (_ = _)) by done).
  repeat (rewrite (bool_decide_true (_ = _)) by done).
  done.
Qed.

Lemma output_stem_match (rest : string) :
  Clean.output_stem ("_raw" +:+ rest) = "_processed" +:+ Clean.output_stem rest.
Proof. apply (output_stem_app EmptyString). Qed.

Lemma output_stem_nomatch c (s : string) :
  String.prefix "_raw" (String c s) = false →
  Clean.output_stem (String c s) = String c (Clean.output_stem s).
Proof.
  intros Hpre. unfold Clean.output_stem, replace.
  by rewrite replace_from_cons, Hpre.
Qed.

(** A first character of the result other than the underscore is the
    first character of the stem. *)
Lemma output_stem_head (s : string) x (t : string) :
  Clean.output_stem s = String x t → x ≠ "_"%char →
  ∃ s', s = String x s' ∧ t = Clean.output_stem s'.
Proof.
  intros Hout Hx. destruct s as [|c s]; [done|].
  destruct (String.prefix "_raw" (String c s)) eqn:Hpre.
  - apply prefix_split in Hpre as [rest Hrest].
    rewrite Hrest, output_stem_match in Hout. by injection Hout as <- _.
  - rewrite (output_stem_nomatch _ _ Hpre) in Hout.
    injection Hout as -> <-. eauto.
Qed.

Lemma output_stem_no_raw_bounded (n : nat) (s : string) :
  String.length s ≤ n → contains "_raw" (Clean.output_stem s) = false.
Proof.
  revert s. induction n as [|n IH]; intros s Hn.
  { by destruct s; [|simpl in Hn; lia]. }
  destruct s as [|c s]; [done|].
  destruct (String.prefix "_raw" (String c s)) eqn:Hpre.
  - pose proof Hpre as [rest Hrest]%prefix_split. rewrite Hrest in *.
    rewrite output_stem_match, contains_processed. apply IH.
    rewrite length_append in Hn. simpl in Hn. lia.
  - rewrite (output_stem_nomatch _ _ Hpre), contains_step.
    rewrite IH by (simpl in Hn; lia). rewrite orb_false_r.
    destruct (String.prefix "_raw" (String c (Clean.output_stem s))) eqn:Hout;
      [|done].
    apply prefix_split in Hout as [u Hu].
    change ("_raw" +:+ u) with (String "_" (String "r" (String "a" (String "w" u))))
      in Hu.
    injection Hu as -> Hu.
    apply output_stem_head in Hu as (s1 & -> & Hu); [|done].
    symmetry in Hu. apply output_stem_head in Hu as (s2 & -> & Hu); [|done].
    symmetry in Hu. apply output_stem_head in Hu as (s3 & -> & _); [|done].
    pose proof (prefix_append "_raw" s3) as Hfull.
    change ("_raw" +:+ s3) with (String "_" (String "r" (String "a" (String "w" s3))))
      in Hfull.
    congruence.
Qed.

End NoRaw.

(** X17.  The name [clean] gives its output holds no [_raw] any more,
    whatever the source file is called; naming is therefore idempotent on
    stems. *)
Theorem output_name_no_raw (target_name : string) :
  PyStr.contains "_raw" (Clean.output_name target_name) = false
  ∧ Clean.output_stem (Clean.output_stem (PyStr.stem target_name))
    = Clean.output_stem (PyStr.stem target_name).
Proof.
  assert (PyStr.contains "_raw" (Clean.output_stem (PyStr.stem target_name)) = false)
    as Hstem by by eapply output_stem_no_raw_bounded.
  split; [|by apply output_stem_absent].
  unfold Clean.output_name.
  destruct (PyStr.contains "_raw"
              (Clean.output_stem (PyStr.stem target_name) +:+ ".csv")) eqn:Hc; [|done].
  exfalso. revert Hstem Hc.
  generalize (Clean.output_stem (PyStr.stem target_name)) as t.
  induction t as [|c t IH]; [done|].
  rewrite append_cons, !contains_step.
  intros [Hpre Ht]%orb_false_iff [Hpre'|Ht']%orb_true_iff; [|by apply IH].
  clear IH. revert Hpre Hpre'.
  destruct t as [|c1 [|c2 [|c3 t]]];
    rewrite ?append_cons, ?append_nil, ?prefix_cons, ?prefix_empty, ?prefix_nil;
    repeat case_bool_decide; simplify_eq; done.
Qed.

(** ** The data folders *)

Section Folders.

Import Bootstrap.

Lemma path_exists_spec (t : tree) (p : string) :
  path_exists t p = true ↔ p ∈ dirs t ∨ p ∈ files t.
Proof. unfold path_exists. by rewrite orb_true_iff, !bool_decide_eq_true. Qed.

Lemma grows_refl (t : tree) : grows t t.
Proof. by split. Qed.

Lemma grows_trans (t1 t2 t3 : tree) : grows t1 t2 → grows t2 t3 → grows t1 t3.
Proof. intros [? ?] [? ?]. split; set_solver. Qed.

Lemma grows_exists (t t' : tree) (p : string) :
  grows t t' → path_exists t p = true → path_exists t' p = true.
Proof. rewrite !path_exists_spec. intros [? ?]. set_solver. Qed.

Lemma make_data_spec (t : tree) :
  grows t (make_data t)
  ∧ path_exists (make_data t) "data" = true
  ∧ (∀ p, p ∈ dirs (make_data t) →
          p ∈ dirs t ∨ (p = "data" ∧ path_exists t "data" = false))
  ∧ files (make_data t) = files t.
Proof.
  unfold make_data. destruct (path_exists t "data") eqn:E.
  - split; [apply grows_refl|]. split; [done|]. split; [auto | done].
  - split; [split; simpl; set_solver|]. split.
    + apply path_exists_spec. simpl. set_solver.
    + split; [|done]. simpl. set_solver.
Qed.

Lemma makedirs_spec (t t' : tree) (p : string) :
  makedirs t p = inr t' →
  grows t t' ∧ p ∈ dirs t' ∧ files t' = files t
  ∧ (∀ q, q ∈ dirs t' →
          q ∈ dirs t ∨ q = p ∨ (q = "data" ∧ path_exists t "data" = false)).
Proof.
  unfold makedirs. case_bool_decide as Hd.
  - intros [= <-]. simpl. split; [split; simpl; set_solver|].
    split; [set_solver|]. split; [done|]. set_solver.
  - case_bool_decide as Hf; [done|]. intros [= <-]. simpl.
    split; [split; simpl; set_solver|]. split; [set_solver|]. split; [done|].
    intros q [->%elem_of_singleton|[->%elem_of_singleton|?]%elem_of_union]%elem_of_union;
      [auto | | auto].
    right. right. split; [done|].
    unfold path_exists. by rewrite !bool_decide_false.
Qed.

Lemma make_folder_spec (t t' : tree) (folder : string) :
  make_folder t folder = inr t' →
  grows t t'
  ∧ path_exists t' (folder_path folder) = true
  ∧ (∀ q, q ∈ dirs t' →
          q ∈ dirs t
          ∨ (q = folder_path folder ∧ path_exists t (folder_path folder) = false)
          ∨ (q = "data" ∧ path_exists t "data" = false))
  ∧ (∀ q, q ∈ files t' →
          q ∈ files t
          ∨ (q = folder_path folder +:+ "/.gitkeep"
             ∧ path_exists t (folder_path folder) = false)).
Proof.
  unfold make_folder. destruct (path_exists t (folder_path folder)) eqn:E.
  - intros [= <-]. split; [apply grows_refl|]. auto.
  - destruct (makedirs t (folder_path folder)) as [e|t1] eqn:Hmk; [done|].
    intros [= <-]. apply makedirs_spec in Hmk as ([Hd Hf] & Hp & Hfiles & Hnew).
    split; [split; simpl; set_solver|]. split.
    { apply path_exists_spec. simpl. auto. }
    split.
    + simpl. intros q Hq. destruct (Hnew q Hq) as [?|[->|?]]; auto.
    + simpl. rewrite Hfiles.
      intros q [->%elem_of_singleton|?]%elem_of_union; auto.
Qed.

Lemma make_folders_error (e : error) (folders : list string) :
  foldl (λ acc folder,
           match acc with
           | inr t' => make_folder t' folder
           | inl e => inl e
           end) (inl e) folders = inl e.
Proof. induction folders as [|f folders IH]; simpl; done. Qed.

Lemma make_folders_cons (t : tree) (folder : string) (folders : list string) :
  make_folders t (folder :: folders) =
    match make_folder t folder with
    | inr t' => make_folders t' folders
    | inl e => inl e
    end.
Proof.
  unfold make_folders. simpl.
  destruct (make_folder t folder); [apply make_folders_error | done].
Qed.

Lemma make_folders_spec (folders : list string) (t t' : tree) :
  make_folders t folders = inr t' →
  grows t t'
  ∧ (∀ f, f ∈ folders → path_exists t' (folder_path f) = true)
  ∧ (∀ q, q ∈ dirs t' →
          q ∈ dirs t
          ∨ (∃ f, f ∈ folders ∧ q = folder_path f
                  ∧ path_exists t (folder_path f) = false)
          ∨ (q = "data" ∧ path_exists t "data" = false))
  ∧ (∀ q, q ∈ files t' →
          q ∈ files t
          ∨ ∃ f, f ∈ folders ∧ q = folder_path f +:+ "/.gitkeep"
                 ∧ path_exists t (folder_path f) = false).
Proof.
  revert t. induction folders as [|folder folders IH]; intros t.
  - intros [= <-]. split; [apply grows_refl|].
    split; [by intros f ?%elem_of_nil|]. auto.
  - rewrite make_folders_cons.
    destruct (make_folder t folder) as [e|t1] eqn:Hone; [done|].
    intros Hrest.
    apply make_folder_spec in Hone as (Hg1 & Hex1 & Hd1 & Hf1).
    apply IH in Hrest as (Hg & Hex & Hd & Hf).
    assert (∀ q, path_exists t1 q = false → path_exists t q = false) as Hback.
    { intros q Hq. destruct (path_exists t q) eqn:E; [|done].
      by rewrite (grows_exists _ _ _ Hg1 E) in Hq. }
    split; [by eapply grows_trans|]. split; [|split].
    + intros f [->|Hin]%elem_of_cons; [by eapply grows_exists|by apply Hex].
    + intros q Hq. destruct (Hd q Hq) as [Hq1|[(f & Hin & -> & Hno)|[-> Hno]]].
      * destruct (Hd1 q Hq1) as [?|[[-> Hno]|[-> Hno]]]; [auto | | auto].
        right. left. exists folder. split; [by left | done].
      * right. left. exists f. split; [by right | auto].
      * right. right. auto.
    + intros q Hq. destruct (Hf q Hq) as [Hq1|(f & Hin & -> & Hno)].
      * destruct (Hf1 q Hq1) as [?|[-> Hno]]; [auto|].
        right. exists folder. split; [by left | done].
      * right. exists f. split; [by right | auto].
Qed.

Lemma make_folders_stable (folders : list string) (t : tree) :
  (∀ f, f ∈ folders → path_exists t (folder_path f) = true) →
  make_folders t folders = inr t.
Proof.
  induction folders as [|folder folders IH]; intros Hall; [done|].
  rewrite make_folders_cons. unfold make_folder.
  rewrite Hall by by left. apply IH. intros f Hf. apply Hall. by right.
Qed.

(** With the directory [data] in place no folder fails. *)
Lemma make_folders_ok (folders : list string) (t : tree) :
  "data" ∈ dirs t → ∃ t', make_folders t folders = inr t'.
Proof.
  revert t. induction folders as [|folder folders IH]; intros t Hdata.
  - by exists t.
  - rewrite make_folders_cons.
    destruct (make_folder t folder) as [e|t1] eqn:Hone.
    + unfold make_folder, makedirs in Hone.
      destruct (path_exists t (folder_path folder)); [done|].
      by rewrite bool_decide_true in Hone.
    + apply IH. apply make_folder_spec in Hone as ([Hd _] & _). set_solver.
Qed.

(** With a file in the place of [data], the first missing folder fails
    and nothing is made before it. *)
Lemma make_folders_blocked (folders : list string) (t : tree) :
  "data" ∉ dirs t → "data" ∈ files t →
  make_folders t folders =
    if forallb (path_exists t ∘ folder_path) folders then inr t else inl OSError.
Proof.
  intros Hd Hf. induction folders as [|folder folders IH]; [done|].
  rewrite make_folders_cons. unfold make_folder, makedirs. simpl.
  destruct (path_exists t (folder_path folder)); simpl; [done|].
  by rewrite bool_decide_false, bool_decide_true.
Qed.

End Folders.

(** X18.  When the start-up code gets through, [data] and the four data
    folders exist, and everything that was there before is still there. *)
Theorem bootstrap_folders_exist (t t' : Bootstrap.tree) :
  Bootstrap.bootstrap t = inr t' →
  Bootstrap.path_exists t' "data" = true
  ∧ (∀ folder, folder ∈ Bootstrap.data_folders →
               Bootstrap.path_exists t' (Bootstrap.folder_path folder) = true)
  ∧ Bootstrap.grows t t'.
Proof.
  unfold Bootstrap.bootstrap. intros (Hg & Hex & _)%make_folders_spec.
  destruct (make_data_spec t) as (Hg0 & Hdata & _).
  split; [by eapply grows_exists|]. split; [done|]. by eapply grows_trans.
Qed.

Lemma bootstrap_folders_exist_witness :
  Bootstrap.path_exists
    (Bootstrap.mkTree
       (list_to_set ["data/processed"; "data/external"; "data/interim";
                     "data/raw"; "data"; "src"])
       (list_to_set ["data/processed/.gitkeep"; "data/external/.gitkeep";
                     "data/interim/.gitkeep"; "data/raw/2020-03-01_raw.csv"]))
    "data" = true
  ∧ (∀ folder, folder ∈ Bootstrap.data_folders →
       Bootstrap.path_exists
         (Bootstrap.mkTree
            (list_to_set ["data/processed"; "data/external"; "data/interim";
                          "data/raw"; "data"; "src"])
            (list_to_set ["data/processed/.gitkeep"; "data/external/.gitkeep";
                          "data/interim/.gitkeep"; "data/raw/2020-03-01_raw.csv"]))
         (Bootstrap.folder_path folder) = true)
  ∧ Bootstrap.grows
      (Bootstrap.mkTree (list_to_set ["data/raw"; "data"; "src"])
         (list_to_set ["data/raw/2020-03-01_raw.csv"]))
      (Bootstrap.mkTree
         (list_to_set ["data/processed"; "data/external"; "data/interim";
                       "data/raw"; "data"; "src"])
         (list_to_set ["data/processed/.gitkeep"; "data/external/.gitkeep";
                       "data/interim/.gitkeep"; "data/raw/2020-03-01_raw.csv"])).
Proof.
  apply (bootstrap_folders_exist
           (Bootstrap.mkTree (list_to_set ["data/raw"; "data"; "src"])
              (list_to_set ["data/raw/2020-03-01_raw.csv"]))).
  vm_compute. reflexivity.
Defined.

(** X19.  Running the start-up code again changes nothing: on the tree a
    successful run leaves, a second run succeeds and leaves the same
    tree. *)
Theorem bootstrap_idempotent (t t' : Bootstrap.tree) :
  Bootstrap.bootstrap t = inr t' → Bootstrap.bootstrap t' = inr t'.
Proof.
  unfold Bootstrap.bootstrap. intros (Hg & Hex & _)%make_folders_spec.
  destruct (make_data_spec t) as (_ & Hdata & _).
  assert (Bootstrap.make_data t' = t') as ->.
  { unfold Bootstrap.make_data. by rewrite (grows_exists _ _ _ Hg Hdata). }
  by apply make_folders_stable.
Qed.

Lemma bootstrap_idempotent_witness :
  Bootstrap.bootstrap
    (Bootstrap.mkTree
       (list_to_set ["data/processed"; "data/external"; "data/interim";
                     "data/raw"; "data"; "src"])
       (list_to_set ["data/processed/.gitkeep"; "data/external/.gitkeep";
                     "data/interim/.gitkeep"; "data/raw/2020-03-01_raw.csv"]))
  = inr (Bootstrap.mkTree
           (list_to_set ["data/processed"; "data/external"; "data/interim";
                         "data/raw"; "data"; "src"])
           (list_to_set ["data/processed/.gitkeep"; "data/external/.gitkeep";
                         "data/interim/.gitkeep"; "data/raw/2020-03-01_raw.csv"])).
Proof.
  apply (bootstrap_idempotent
           (Bootstrap.mkTree (list_to_set ["data/raw"; "data"; "src"])
              (list_to_set ["data/raw/2020-03-01_raw.csv"]))).
  vm_compute. reflexivity.
Defined.

(** X20.  The start-up code makes what is missing and nothing else: a
    directory of the new tree was there before, or is [data] or a data
    folder that did not exist; a file of the new tree was there before,
    or is the [.gitkeep] of a data folder that did not exist.  A folder
    that exists gets no [.gitkeep]. *)
Theorem bootstrap_makes_only_missing (t t' : Bootstrap.tree) :
  Bootstrap.bootstrap t = inr t' →
  (∀ q, q ∈ Bootstrap.dirs t' →
        q ∈ Bootstrap.dirs t
        ∨ (q = "data" ∧ Bootstrap.path_exists t "data" = false)
        ∨ ∃ folder, folder ∈ Bootstrap.data_folders
                    ∧ q = Bootstrap.folder_path folder
                    ∧ Bootstrap.path_exists t (Bootstrap.folder_path folder) = false)
  ∧ (∀ q, q ∈ Bootstrap.files t' →
          q ∈ Bootstrap.files t
          ∨ ∃ folder, folder ∈ Bootstrap.data_folders
                      ∧ q = Bootstrap.folder_path folder +:+ "/.gitkeep"
                      ∧ Bootstrap.path_exists t (Bootstrap.folder_path folder) = false).
Proof.
  unfold Bootstrap.bootstrap. intros (_ & _ & Hd & Hf)%make_folders_spec.
  destruct (make_data_spec t) as (Hg0 & Hdata & Hd0 & Hf0).
  assert (∀ q, Bootstrap.path_exists (Bootstrap.make_data t) q = false →
               Bootstrap.path_exists t q = false) as Hback.
  { intros q Hq. destruct (Bootstrap.path_exists t q) eqn:E; [|done].
    by rewrite (grows_exists _ _ _ Hg0 E) in Hq. }
  split.
  - intros q Hq. destruct (Hd q Hq) as [Hq0|[(f & Hin & -> & Hno)|[-> Hno]]].
    + destruct (Hd0 q Hq0) as [?|[-> ?]]; auto.
    + right. right. exists f. auto.
    + by rewrite Hdata in Hno.
  - intros q Hq. destruct (Hf q Hq) as [Hq0|(f & Hin & -> & Hno)].
    + left. by rewrite <- Hf0.
    + right. exists f. auto.
Qed.

Lemma bootstrap_makes_only_missing_witness :
  (∀ q, q ∈ Bootstrap.dirs
              (Bootstrap.mkTree
                 (list_to_set ["data/processed"; "data/external"; "data/interim";
                               "data/raw"; "data"; "src"])
                 (list_to_set ["data/processed/.gitkeep"; "data/external/.gitkeep";
                               "data/interim/.gitkeep";
                               "data/raw/2020-03-01_raw.csv"])) →
        q ∈ Bootstrap.dirs
              (Bootstrap.mkTree (list_to_set ["data/raw"; "data"; "src"])
                 (list_to_set ["data/raw/2020-03-01_raw.csv"]))
        ∨ (q = "data"
           ∧ Bootstrap.path_exists
               (Bootstrap.mkTree (list_to_set ["data/raw"; "data"; "src"])
                  (list_to_set ["data/raw/2020-03-01_raw.csv"])) "data" = false)
        ∨ ∃ folder, folder ∈ Bootstrap.data_folders
                    ∧ q = Bootstrap.folder_path folder
                    ∧ Bootstrap.path_exists
                        (Bootstrap.mkTree (list_to_set ["data/raw"; "data"; "src"])
                           (list_to_set ["data/raw/2020-03-01_raw.csv"]))
                        (Bootstrap.folder_path folder) = false)
  ∧ (∀ q, q ∈ Bootstrap.files
                (Bootstrap.mkTree
                   (list_to_set ["data/processed"; "data/external"; "data/interim";
                                 "data/raw"; "data"; "src"])
                   (list_to_set ["data/processed/.gitkeep"; "data/external/.gitkeep";
                                 "data/interim/.gitkeep";
                                 "data/raw/2020-03-01_raw.csv"])) →
          q ∈ Bootstrap.files
                (Bootstrap.mkTree (list_to_set ["data/raw"; "data"; "src"])
                   (list_to_set ["data/raw/2020-03-01_raw.csv"]))
          ∨ ∃ folder, folder ∈ Bootstrap.data_folders
                      ∧ q = Bootstrap.folder_path folder +:+ "/.gitkeep"
                      ∧ Bootstrap.path_exists
                          (Bootstrap.mkTree (list_to_set ["data/raw"; "data"; "src"])
                             (list_to_set ["data/raw/2020-03-01_raw.csv"]))
                          (Bootstrap.folder_path folder) = false).
Proof.
  apply (bootstrap_makes_only_missing
           (Bootstrap.mkTree (list_to_set ["data/raw"; "data"; "src"])
              (list_to_set ["data/raw/2020-03-01_raw.csv"]))).
  vm_compute. reflexivity.
Defined.

(** X21.  The start-up code fails exactly when a file stands in the place
    of the directory [data] and one of the data folders is missing; the
    failure is the [OSError] of [os.makedirs]. *)
Theorem bootstrap_fails_iff (t : Bootstrap.tree) :
  Bootstrap.bootstrap t = inl Bootstrap.OSError ↔
  (("data" ∉ Bootstrap.dirs t) ∧ "data" ∈ Bootstrap.files t
   ∧ ∃ folder, folder ∈ Bootstrap.data_folders
               ∧ Bootstrap.path_exists t (Bootstrap.folder_path folder) = false).
Proof.
  unfold Bootstrap.bootstrap.
  destruct (decide ("data" ∈ Bootstrap.dirs t)) as [Hd|Hd].
  { destruct (make_folders_ok Bootstrap.data_folders (Bootstrap.make_data t))
      as [t' Ht'].
    - destruct (make_data_spec t) as ([Hsub _] & _). set_solver.
    - rewrite Ht'. split; [done | by intros [? _]]. }
  destruct (decide ("data" ∈ Bootstrap.files t)) as [Hf|Hf].
  - assert (Bootstrap.make_data t = t) as ->.
    { unfold Bootstrap.make_data, Bootstrap.path_exists.
      by rewrite (bool_decide_true (_ ∈ Bootstrap.files t)), orb_true_r. }
    rewrite (make_folders_blocked _ _ Hd Hf).
    destruct (forallb _ _) eqn:Hall.
    + split; [done|]. intros (_ & _ & f & Hin & Hno).
      rewrite forallb_forall in Hall.
      apply list_elem_of_In, Hall in Hin. simpl in Hin. congruence.
    + split; [|done]. intros _. split; [done|]. split; [done|].
      by apply forallb_false_elem in Hall.
  - destruct (make_folders_ok Bootstrap.data_folders (Bootstrap.make_data t))
      as [t' Ht'].
    + unfold Bootstrap.make_data, Bootstrap.path_exists.
      rewrite !bool_decide_false by done. simpl. set_solver.
    + rewrite Ht'. split; [done | by intros (_ & ? & _)].
Qed.
